(** * Antenna_DSN: the NMC client, its onsource evaluator and the DSS-43
      simulators, embedded in Rocq.

    Source files covered:
    - [nmc_server.py]                 (modules [Client] and [ClientOps])
    - [simulator/__init__.py]         ([FakeAntenna], inside [Client])
    - [simulator/nmc_sim43.py]        (modules [Sim43] and [Sim43Loops], the
                                       threaded simulator and its threads)
    - [simulator/async_nmc_sim43.py]  (module [AsyncSim43])

    Conventions of the embedding.
    - Python floats are idealised as rationals ([Q]); the library functions
      that leave the rationals ([np.cos], [np.deg2rad]) or that belong to the
      interpreter ([float] of a text, [str] of a float, [decode]) are the
      fields of the class [Runtime]; what the clock reads is part of the
      state.
    - [str] and [bytes] are kept apart ([Str] / [Bytes]): a dictionary keyed
      by one is never hit by the other, as in Python 3.
    - Methods that mutate the object or raise are written in a state and
      exception monad; a raised exception keeps the mutations done so far.
    - Loops that need not terminate take fuel; running out of fuel is
      divergence, never a result. *)

From Stdlib Require Import ZArith QArith Qabs Qcanon Lqa String Ascii List Bool Lia.
From stdpp Require Import base option list strings gmap pretty.

Local Open Scope string_scope.

(* ===================================================================== *)
(** * Python runtime: exceptions, texts, values                          *)
(* ===================================================================== *)

Module Py.

Inductive exn : Type :=
| KeyError | IndexError | TypeError | ValueError | AttributeError
| RuntimeError | NotImplementedError | UnicodeDecodeError.

(** Outcome of a call: a value, or a raised exception. *)
Inductive result (A : Type) : Type :=
| Ok (a : A)
| Raise (e : exn).
Arguments Ok {A} a.
Arguments Raise {A} e.

(** State and exception monad over the object [S] the method belongs to. *)
Definition M (S A : Type) : Type := S → result A * S.

Definition ret {S A} (a : A) : M S A := λ s, (Ok a, s).
Definition raise {S A} (e : exn) : M S A := λ s, (Raise e, s).
Definition bind {S A B} (m : M S A) (k : A → M S B) : M S B :=
  λ s, match m s with
       | (Ok a, s') => k a s'
       | (Raise e, s') => (Raise e, s')
       end.
Definition read {S} : M S S := λ s, (Ok s, s).
Definition modify {S} (f : S → S) : M S unit := λ s, (Ok tt, f s).
Definition lift {S A} (r : result A) : M S A := λ s, (r, s).

(** ** Characters and texts *)

Definition code (c : ascii) : N := N_of_ascii c.

(** ASCII whitespace, what [bytes.strip()] and [str.strip()] remove. *)
Definition is_space (c : ascii) : bool :=
  ((9 <=? code c) && (code c <=? 13) || (code c =? 32))%N.

Definition upper_char (c : ascii) : ascii :=
  if ((97 <=? code c) && (code c <=? 122))%N then ascii_of_N (code c - 32) else c.

Definition lower_char (c : ascii) : ascii :=
  if ((65 <=? code c) && (code c <=? 90))%N then ascii_of_N (code c + 32) else c.

Fixpoint smap (f : ascii → ascii) (s : string) : string :=
  match s with
  | EmptyString => EmptyString
  | String c r => String (f c) (smap f r)
  end.

Definition upper : string → string := smap upper_char.
Definition lower : string → string := smap lower_char.

Fixpoint lstrip (s : string) : string :=
  match s with
  | String c r => if is_space c then lstrip r else s
  | EmptyString => EmptyString
  end.

Fixpoint rstrip (s : string) : string :=
  match s with
  | EmptyString => EmptyString
  | String c r =>
      match rstrip r with
      | EmptyString => if is_space c then EmptyString else String c EmptyString
      | r' => String c r'
      end
  end.

Definition strip (s : string) : string := rstrip (lstrip s).

(** [s.split(sep)] for a non-empty separator: fields between successive,
    non-overlapping occurrences of [sep], scanned from the left.  [skip]
    counts the characters of a separator still to be passed over. *)
Fixpoint split_go (sep : string) (skip : nat) (s : string) : list string :=
  match skip, s with
  | S k, String _ r => split_go sep k r
  | S _, EmptyString => [EmptyString]
  | O, EmptyString => [EmptyString]
  | O, String c r =>
      if String.prefix sep s
      then EmptyString :: split_go sep (String.length sep - 1) r
      else match split_go sep 0 r with
           | h :: t => String c h :: t
           | [] => [String c EmptyString]
           end
  end.

Definition split (sep s : string) : list string := split_go sep 0 s.

(** [sep.join(l)] *)
Fixpoint join (sep : string) (l : list string) : string :=
  match l with
  | [] => EmptyString
  | [x] => x
  | x :: r => x +:+ sep +:+ join sep r
  end.

(** [needle in hay], and [hay.find(needle) == -1] is its negation. *)
Definition contains (needle hay : string) : bool :=
  match String.index 0 needle hay with Some _ => true | None => false end.

Fixpoint take (n : nat) (s : string) : string :=
  match n, s with
  | S k, String c r => String c (take k r)
  | _, _ => EmptyString
  end.

Fixpoint drop (n : nat) (s : string) : string :=
  match n, s with
  | S k, String _ r => drop k r
  | _, _ => s
  end.

(** A text object: [str] or [bytes].  They never compare equal. *)
Inductive text : Type :=
| Str (s : string)
| Bytes (s : string).

Definition payload (t : text) : string :=
  match t with Str s | Bytes s => s end.

Definition tmap (f : string → string) (t : text) : text :=
  match t with Str s => Str (f s) | Bytes s => Bytes (f s) end.

Definition text_eqb (a b : text) : bool :=
  match a, b with
  | Str x, Str y | Bytes x, Bytes y => String.eqb x y
  | _, _ => false
  end.

(** [t.split(sep)]: a separator of the other kind is a [TypeError]. *)
Definition text_split (sep t : text) : result (list text) :=
  match sep, t with
  | Str p, Str s => Ok (map Str (split p s))
  | Bytes p, Bytes s => Ok (map Bytes (split p s))
  | _, _ => Raise TypeError
  end.

(** Python values that travel through the modelled methods. *)
Inductive value : Type :=
| VNone
| VInt (z : Z)
| VFloat (q : Q)
| VText (t : text).

(** [math.pi], the double nearest to pi, is a rational. *)
Definition math_pi : Q := 884279719003555 # 281474976710656.

(** [np.deg2rad(x)] is [x * (pi / 180)]. *)
Definition np_deg2rad (x : Q) : Q := (x * (math_pi / 180))%Q.

Fixpoint is_ascii (s : string) : bool :=
  match s with
  | EmptyString => true
  | String c r => (code c <? 128)%N && is_ascii r
  end.

(** What the interpreter and numpy provide. *)
Class Runtime : Type := {
  (** [float(s)] for a text payload; [None] is [ValueError]. *)
  float_of_string : string → option Q;
  (** [str(x)] / ["{}".format(x)] for a float. *)
  str_of_float : Q → string;
  np_cos : Q → Q;
  (** [b.decode("utf8")]; [None] is [UnicodeDecodeError].  The wire
      protocol is ASCII, and ASCII bytes decode to themselves. *)
  decode_utf8 : string → option string;
  decode_utf8_ascii : ∀ s, is_ascii s = true → decode_utf8 s = Some s
}.

Section WithRuntime.
Context `{Runtime}.

(** [float(v)] *)
Definition float (v : value) : result Q :=
  match v with
  | VNone => Raise TypeError
  | VInt z => Ok (inject_Z z)
  | VFloat q => Ok q
  | VText t =>
      match float_of_string (payload t) with
      | Some q => Ok q
      | None => Raise ValueError
      end
  end.

(** [str(v)], also what ["{}".format(v)] inserts.  For [bytes] this is the
    [repr], written without escapes. *)
Definition str (v : value) : string :=
  match v with
  | VNone => "None"
  | VInt z => pretty z
  | VFloat q => str_of_float q
  | VText (Str s) => s
  | VText (Bytes s) => "b'" +:+ s +:+ "'"
  end.

End WithRuntime.

(** Comparisons of floats, as booleans. *)
Definition Qltb (a b : Q) : bool := negb (Qle_bool b a).

#[global] Instance M_ret {S} : MRet (M S) := λ A, ret.
#[global] Instance M_bind {S} : MBind (M S) := λ A B k m, bind m k.

(** Run [f] on each element in order and collect the results. *)
Fixpoint mapM {S A B} (f : A → M S B) (l : list A) : M S (list B) :=
  match l with
  | [] => ret []
  | x :: r => y ← f x; ys ← mapM f r; ret (y :: ys)
  end.

(** [for x in l: f(x)] *)
Fixpoint forM {S A} (l : list A) (f : A → M S unit) : M S unit :=
  match l with
  | [] => ret tt
  | x :: r => f x;; forM r f
  end.

(** A dictionary whose order of registration matters: a list of items.
    [d[k]] and [k in d] scan it for the first equal key. *)
Fixpoint lookup_first {V} (k : text) (d : list (text * V)) : option V :=
  match d with
  | [] => None
  | (k', v) :: r => if text_eqb k' k then Some v else lookup_first k r
  end.

(** [sep.join(items)]: every item must be of the separator's kind. *)
Fixpoint same_kind (sep : text) (items : list text) : bool :=
  match items with
  | [] => true
  | Str _ :: r => match sep with Str _ => same_kind sep r | Bytes _ => false end
  | Bytes _ :: r => match sep with Bytes _ => same_kind sep r | Str _ => false end
  end.

Definition text_join (sep : text) (items : list text) : result text :=
  if same_kind sep items
  then Ok (tmap (λ p, join p (map payload items)) sep)
  else Raise TypeError.

#[global] Instance text_eq_dec : EqDecision text.
Proof. solve_decision. Defined.

#[global] Instance text_countable : Countable text :=
  inj_countable'
    (λ t, match t with Str s => inl s | Bytes s => inr s end)
    (λ x, match x with inl s => Str s | inr s => Bytes s end)
    (λ t, match t with Str _ | Bytes _ => eq_refl end).

End Py.

(* ===================================================================== *)
(** * The object state shared by the two simulators                      *)
(* ===================================================================== *)

Module SimData.
Local Open Scope Q_scope.

(** [self.offsets[axis]] *)
Record axis_offsets : Type := {
  accumulated : Q;
  offset : Q;
  rate : Q
}.

(** [self.point[axis]] *)
Record point_axis : Type := {
  predicted : Q;
  actual : Q
}.

(** The weather and clock attributes, all initialised to the integer 0. *)
Record weather : Type := {
  temperature : Py.value;
  pressure : Py.value;
  humidity : Py.value;
  windspeed : Py.value;
  winddirection : Py.value;
  precipitation : Py.value;
  WxHr : Py.value;
  WxMin : Py.value;
  WxSec : Py.value
}.

(** What the clock reads when a handler asks. *)
Record clock_reading : Type := {
  (** [time.time()] *)
  time_time : Q;
  (** [time.mktime(datetime.datetime.utcnow().timetuple())] *)
  mktime_utcnow : Q;
  (** [datetime.datetime.utcnow().strftime("%Y-%j-%H:%M:%S.%f")] *)
  utcnow_doy : string
}.

Definition initial_weather : weather :=
  {| temperature := Py.VInt 0; pressure := Py.VInt 0; humidity := Py.VInt 0;
     windspeed := Py.VInt 0; winddirection := Py.VInt 0;
     precipitation := Py.VInt 0; WxHr := Py.VInt 0; WxMin := Py.VInt 0;
     WxSec := Py.VInt 0 |}.

Definition initial_offsets : gmap Py.text axis_offsets :=
  <[Py.Str "XEL" := {| accumulated := 0; offset := 0; rate := 1 |}]>
  (<[Py.Str "EL" := {| accumulated := 0; offset := 0; rate := 1 |}]> ∅).

Definition initial_point (az : Q) : gmap Py.text point_axis :=
  <[Py.Str "EL" := {| predicted := 88; actual := 88 |}]>
  (<[Py.Str "AZ" := {| predicted := az; actual := az |}]> ∅).

(** The entry of [self.offsets] once both its [offset] and its
    [accumulated] fields hold [v]. *)
Definition written (v : Q) (o : axis_offsets) : axis_offsets :=
  {| accumulated := v; offset := v; rate := rate o |}.

(** The keys of [self.offsets] in the order [for direction in self.offsets]
    visits them; no method adds or removes a key. *)
Definition offset_axes : list Py.text := [Py.Str "EL"; Py.Str "XEL"].

(** [get_direction], the helper local to both position loops. *)
Definition get_direction (diff : Q) : Q :=
  if Py.Qltb diff 0 then -1 else 1.

(** The body of [for axis in ["AZ", "EL"]] of both position loops, for one
    axis whose [predicted] has just been set. *)
Definition slew_axis (slew_rate : Q) (p : point_axis) : point_axis :=
  let diff := predicted p - actual p in
  if Py.Qltb slew_rate (Qabs diff)
  then {| predicted := predicted p;
          actual := actual p + get_direction diff * slew_rate |}
  else {| predicted := predicted p; actual := predicted p |}.

End SimData.

(* ===================================================================== *)
(** * A stream socket as the request handlers see it                     *)
(* ===================================================================== *)

Module Socket.

(** [inbound] holds what the peer has delivered and the handler has not
    read yet, one item per delivery; [sent] logs what [send] was given. *)
Record conn : Type := {
  inbound : list string;
  sent : list string
}.

(** [recv(n)]: at most [n] bytes of the oldest delivery; the empty string
    once the peer is done. *)
Definition recv (n : nat) (c : conn) : string * conn :=
  match inbound c with
  | [] => (EmptyString, c)
  | d :: r =>
      (Py.take n d,
       {| inbound := match Py.drop n d with
                     | EmptyString => r
                     | rest => rest :: r
                     end;
          sent := sent c |})
  end.

Definition send (b : string) (c : conn) : conn :=
  {| inbound := inbound c; sent := sent c ++ [b] |}.

(** Everything pending on a connection, delivery boundaries forgotten. *)
Fixpoint flat (l : list string) : string :=
  match l with
  | [] => EmptyString
  | d :: r => d +:+ flat r
  end.

(** No delivery is empty: an empty read means the peer is done. *)
Definition deliveries (l : list string) : Prop :=
  Forall (λ d, d ≠ EmptyString) l.

(** The line terminator of the protocol, and a request line: a body free
    of the terminator, then the terminator. *)
Definition newline : ascii := ascii_of_N 10.
Definition break_char : string := String newline EmptyString.

Definition terminated (s : string) : Prop :=
  ∃ body, s = body +:+ break_char ∧ Py.contains break_char body = false.



End Socket.

(* ===================================================================== *)
(** * simulator/nmc_sim43.py: the threaded simulator                     *)
(* ===================================================================== *)

Module Sim43.
Import Py SimData.
Local Open Scope Q_scope.

(** ** Worker threads, as the antenna object refers to them *)

Record OffsetRateThread : Type := {
  ort_axis : text;
  ort_stop_event : bool
}.

Record WeatherThread : Type := {
  wt_update_rate : Q;
  wt_stop_event : bool
}.

Record PointThread : Type := {
  initial_coord : value * value;
  body_ra : Q;
  body_dec : Q;
  slew_rate : Q;
  update_rate : Q;
  update_display_rate : Q;
  current_time : Q;
  pt_stop_event : bool
}.

(** ** [SimulatedAntenna] *)

Record antenna : Type := {
  onsource_counter : Z;
  offsets : gmap text axis_offsets;
  point : gmap text point_axis;
  wrap : value;
  wx : weather;
  offset_rate_thread : option OffsetRateThread;
  point_antenna_thread : option PointThread;
  weather_thread : option WeatherThread;
  clock : clock_reading
}.

(** [SimulatedAntenna.__init__]; [wrap_center] stands for
    [antenna_wrap[number]['wrap']['center']], a table outside the
    repository. *)
Definition SimulatedAntenna (wrap_center : Q) (now : clock_reading) : antenna :=
  {| onsource_counter := 0;
     offsets := initial_offsets;
     point := initial_point wrap_center;
     wrap := VInt 0;
     wx := initial_weather;
     offset_rate_thread := None;
     point_antenna_thread := None;
     weather_thread := None;
     clock := now |}.

Definition with_offsets (f : gmap text axis_offsets → gmap text axis_offsets)
    (a : antenna) : antenna :=
  {| onsource_counter := onsource_counter a; offsets := f (offsets a);
     point := point a; wrap := wrap a; wx := wx a;
     offset_rate_thread := offset_rate_thread a;
     point_antenna_thread := point_antenna_thread a;
     weather_thread := weather_thread a; clock := clock a |}.

Definition with_point (f : gmap text point_axis → gmap text point_axis)
    (a : antenna) : antenna :=
  {| onsource_counter := onsource_counter a; offsets := offsets a;
     point := f (point a); wrap := wrap a; wx := wx a;
     offset_rate_thread := offset_rate_thread a;
     point_antenna_thread := point_antenna_thread a;
     weather_thread := weather_thread a; clock := clock a |}.

Definition with_onsource_counter (n : Z) (a : antenna) : antenna :=
  {| onsource_counter := n; offsets := offsets a;
     point := point a; wrap := wrap a; wx := wx a;
     offset_rate_thread := offset_rate_thread a;
     point_antenna_thread := point_antenna_thread a;
     weather_thread := weather_thread a; clock := clock a |}.

Definition with_offset_rate_thread (t : option OffsetRateThread)
    (a : antenna) : antenna :=
  {| onsource_counter := onsource_counter a; offsets := offsets a;
     point := point a; wrap := wrap a; wx := wx a;
     offset_rate_thread := t;
     point_antenna_thread := point_antenna_thread a;
     weather_thread := weather_thread a; clock := clock a |}.

Definition with_point_antenna_thread (t : option PointThread)
    (a : antenna) : antenna :=
  {| onsource_counter := onsource_counter a; offsets := offsets a;
     point := point a; wrap := wrap a; wx := wx a;
     offset_rate_thread := offset_rate_thread a;
     point_antenna_thread := t;
     weather_thread := weather_thread a; clock := clock a |}.

(** [self.offsets[axis]]: a missing key is a [KeyError]. *)
Definition offsets_item (axis : text) : M antenna axis_offsets :=
  a ← read;
  match offsets a !! axis with
  | Some o => ret o
  | None => raise KeyError
  end.

Definition point_item (axis : text) : M antenna point_axis :=
  a ← read;
  match point a !! axis with
  | Some p => ret p
  | None => raise KeyError
  end.

(** [axis in list(self.offsets.keys())] *)
Definition is_offset_axis (axis : text) (a : antenna) : bool :=
  bool_decide (is_Some (offsets a !! axis)).

Section Methods.
Context `{Runtime}.

Definition get_offset (axis : text) : M antenna Q :=
  o ← offsets_item axis; ret (offset o).

Definition get_accum_offset (axis : text) : M antenna Q :=
  o ← offsets_item axis; ret (accumulated o).

Definition get_offset_rate (axis : text) : M antenna Q :=
  o ← offsets_item axis; ret (rate o).

(** [t._stop_event.set(); t.join()] on the thread an attribute holds. *)
Definition stop_offset_rate_thread : M antenna unit :=
  modify (λ a, with_offset_rate_thread
    ((λ t, {| ort_axis := ort_axis t; ort_stop_event := true |})
       <$> offset_rate_thread a) a).

Definition set_rate (axis : text) (new_rate : value) : M antenna unit :=
  let axis := tmap upper axis in
  (* the debug message formats self.offsets[axis]["rate"] *)
  _ ← offsets_item axis;
  a ← read;
  if negb (is_offset_axis axis a) then ret tt
  else
    r ← lift (float new_rate);
    modify (with_offsets (alter (λ o,
      {| accumulated := accumulated o; offset := offset o; rate := r |}) axis));;
    stop_offset_rate_thread;;
    modify (with_offset_rate_thread
      (Some {| ort_axis := axis; ort_stop_event := false |})).

Definition set_offset (axis : text) (new_offset : value) : M antenna unit :=
  v ← lift (float new_offset);
  let axis := tmap upper axis in
  (* the debug message formats self.get_offset(axis) *)
  _ ← get_offset axis;
  a ← read;
  if negb (is_offset_axis axis a) then ret tt
  else
    modify (with_offsets (alter (λ o,
      {| accumulated := accumulated o; offset := v; rate := rate o |}) axis));;
    modify (with_offsets (alter (λ o,
      {| accumulated := v; offset := offset o; rate := rate o |}) axis)).

Definition set_accum_offset (axis : text) (new_offset : value) : M antenna unit :=
  v ← lift (float new_offset);
  let axis := tmap upper axis in
  _ ← get_accum_offset axis;
  a ← read;
  if negb (is_offset_axis axis a) then ret tt
  else
    modify (with_offsets (alter (λ o,
      {| accumulated := v; offset := offset o; rate := rate o |}) axis)).


(** [PointThread.__init__] with its keyword defaults made explicit by the
    caller. *)
Definition PointThread_init (coord : value * value) (coord_type : string)
    (slew update update_display now : Q) : result PointThread :=
  if negb (String.eqb coord_type "AZEL" || String.eqb coord_type "RADEC")
  then Raise RuntimeError
  else if String.eqb coord_type "AZEL" then Raise NotImplementedError
  else
    let convert := 180 / math_pi in
    match float (fst coord) with
    | Raise e => Raise e
    | Ok ra =>
        match float (snd coord) with
        | Raise e => Raise e
        | Ok dec =>
            Ok {| initial_coord := coord;
                  body_ra := ra / convert; body_dec := dec / convert;
                  slew_rate := slew; update_rate := update;
                  update_display_rate := update_display;
                  current_time := now; pt_stop_event := false |}
        end
    end.

(** [d[axis][field] = v] on [self.point], which the loop aliases as
    [current_point]. *)
Definition point_update (axis : text) (f : point_axis → point_axis) : M antenna unit :=
  _ ← point_item axis;
  modify (with_point (alter f axis)).

(** One pass of the loop of [PointThread.run].  [commanded] is what
    [calc_commanded_azel()] (the ephemeris) answers at this pass. *)
Definition PointThread_tick (t : PointThread) (commanded : Q * Q) : M antenna unit :=
  point_update (Str "AZ") (λ p, {| predicted := fst commanded; actual := actual p |});;
  point_update (Str "EL") (λ p, {| predicted := snd commanded; actual := actual p |});;
  let slew_amount := slew_rate t * update_rate t in
  forM [Str "AZ"; Str "EL"] (λ axis, point_update axis (slew_axis (slew_rate t))).

Definition point_antenna (ra dec : value) : M antenna unit :=
  modify (λ a, with_point_antenna_thread
    ((λ t, {| initial_coord := initial_coord t; body_ra := body_ra t;
              body_dec := body_dec t; slew_rate := slew_rate t;
              update_rate := update_rate t;
              update_display_rate := update_display_rate t;
              current_time := current_time t; pt_stop_event := true |})
       <$> point_antenna_thread a) a);;
  a ← read;
  t ← lift (PointThread_init (ra, dec) "RADEC" (23 # 100) 1 5 (time_time (clock a)));
  modify (with_point_antenna_thread (Some t)).

(** ** Command handlers *)

Definition COMPLETED : value := VText (Str "COMPLETED").
Definition REJECTED : value := VText (Str "REJECTED").

Definition antenna_move (request_list : list text) : M antenna value := ret COMPLETED.
Definition antenna_semn (request_list : list text) : M antenna value := ret COMPLETED.
Definition antenna_trk (request_list : list text) : M antenna value := ret COMPLETED.
Definition antenna_hi (request_list : list text) : M antenna value := ret COMPLETED.

Definition antenna_ro (request_list : list text) : M antenna value :=
  match request_list with
  | [_; _; axis; new_rate] => set_rate axis (VText new_rate);; ret COMPLETED
  | _ => ret REJECTED
  end.

Definition antenna_po (request_list : list text) : M antenna value :=
  match request_list with
  | [_; _; axis; new_offset] => set_offset axis (VText new_offset);; ret COMPLETED
  | _ => ret REJECTED
  end.

Definition antenna_clr (request_list : list text) : M antenna value :=
  match request_list with
  | _ :: _ :: what :: _ =>
      if text_eqb what (Str "RO") then
        forM offset_axes (λ direction, set_rate direction (VFloat 0));;
        stop_offset_rate_thread;;
        ret COMPLETED
      else if text_eqb what (Str "PO") then
        modify (with_offsets (fmap (λ o,
          {| accumulated := 0; offset := 0; rate := rate o |})));;
        ret COMPLETED
      else ret REJECTED
  | _ => ret REJECTED
  end.

Definition antenna_radec (request_list : list text) : M antenna value :=
  match request_list with
  | [_; _; ra; dec] => point_antenna (VText ra) (VText dec);; ret VNone
  | _ => ret REJECTED
  end.

Definition antenna_azel (request_list : list text) : M antenna value :=
  raise NotImplementedError.

(** [self.antenna_subcommands], in the order of the constructor. *)
Definition antenna_subcommands : list (text * (list text → M antenna value)) :=
  [ (Bytes "HI", antenna_hi); (Bytes "RO", antenna_ro);
    (Bytes "PO", antenna_po); (Bytes "CLR", antenna_clr);
    (Bytes "TRK", antenna_trk); (Bytes "MOVE", antenna_move);
    (Bytes "SEMN", antenna_semn); (Bytes "RADEC", antenna_radec);
    (Bytes "AZEL", antenna_azel) ].

(** The [for] loop returns from inside on a match; when it runs to its end
    the method falls off its body and the call yields [None].  The [else]
    belongs to the [if len(request_list) > 1]. *)
Definition antenna_cmd (request_list : list text) : M antenna value :=
  match request_list with
  | _ :: second :: _ =>
      match lookup_first (tmap upper second) antenna_subcommands with
      | Some cb => cb request_list
      | None => ret VNone
      end
  | _ => ret REJECTED
  end.

(** [self.params], in the order of the constructor. *)
Definition params : list (text * M antenna value) :=
  let attr (f : antenna → value) : M antenna value := a ← read; ret (f a) in
  let flt (m : M antenna Q) : M antenna value := q ← m; ret (VFloat q) in
  [ (Bytes "temperature", attr (λ a, temperature (wx a)));
    (Bytes "pressure", attr (λ a, pressure (wx a)));
    (Bytes "windspeed", attr (λ a, windspeed (wx a)));
    (Bytes "winddirection", attr (λ a, winddirection (wx a)));
    (Bytes "precipitation", attr (λ a, precipitation (wx a)));
    (Bytes "total_precipitation", attr (λ a, precipitation (wx a)));
    (Bytes "humidity", attr (λ a, humidity (wx a)));
    (Bytes "WxHr", attr (λ a, WxHr (wx a)));
    (Bytes "WxMin", attr (λ a, WxMin (wx a)));
    (Bytes "WxSec", attr (λ a, WxSec (wx a)));
    (Bytes "AzimuthPredictedAngle", flt (p ← point_item (Str "AZ"); ret (predicted p)));
    (Bytes "AzimuthAngle", flt (p ← point_item (Str "AZ"); ret (actual p)));
    (Bytes "ElevationPredictedAngle", flt (p ← point_item (Str "EL"); ret (predicted p)));
    (Bytes "ElevationAngle", flt (p ← point_item (Str "EL"); ret (actual p)));
    (Bytes "WRAP", attr wrap);
    (Bytes "AzimuthTrackingError", ret (VInt 0));
    (Bytes "ElevationTrackingError", ret (VInt 0));
    (Bytes "Status", ret (VText (Str "operational")));
    (Bytes "AxisAngleTime", ret (VInt 0));
    (Bytes "ElevationManualOffset", flt (get_accum_offset (Str "EL")));
    (Bytes "ElevationPositionOffset", flt (get_offset (Str "EL")));
    (Bytes "ElevationAccumulatedRateOffset", flt (get_accum_offset (Str "EL")));
    (Bytes "CrossElevationManualOffset", flt (get_accum_offset (Str "XEL")));
    (Bytes "CrossElevationPositionOffset", flt (get_offset (Str "XEL")));
    (Bytes "CrossElevationAccumulatedRateOffset", flt (get_accum_offset (Str "XEL")));
    (Bytes "AzimuthAngleWrap", attr wrap);
    (Bytes "ANGTIME", attr (λ a,
       VText (Str (str_of_float (time_time (clock a)) +:+ " 18000000 0"))));
    (Bytes "CurrentDoyTime", attr (λ a, VText (Str (utcnow_doy (clock a))))) ].

(** [", ".join([str(self.params[p]()) for p in request_list[1:]
                if p in self.params])] *)
Definition get (request_list : list text) : M antenna value :=
  let requested_params := tail request_list in
  vals ← mapM (λ g : M antenna value, v ← g; ret (str v))
              (omap (λ p, lookup_first p params) requested_params);
  ret (VText (Str (join ", " vals))).

Definition get_weather (request_list : list text) : M antenna value :=
  a ← read;
  let w := wx a in
  ret (VText (Str ("COMPLETED " +:+ join " "
    [str (temperature w); str (pressure w); str (humidity w);
     str (windspeed w); str (winddirection w); str (precipitation w);
     join ":" [str (WxHr w); str (WxMin w); str (WxSec w)]]))).

Definition get_offsets (request_list : list text) : M antenna value :=
  el ← get_offset (Str "EL");
  xel ← get_offset (Str "XEL");
  ret (VText (Str ("COMPLETED " +:+ join " "
    [str (VFloat el); str (VInt 0); str (VFloat xel); str (VInt 0)]))).

Definition get_azel (request_list : list text) : M antenna value :=
  a ← read;
  let timestamp := mktime_utcnow (clock a) in
  az ← point_item (Str "AZ");
  el ← point_item (Str "EL");
  ret (VText (Str ("COMPLETED " +:+ join " "
    [str (VFloat (actual az)); str (VFloat (actual el)); str (wrap a);
     str (VFloat timestamp)]))).

Definition get_hadec (request_list : list text) : M antenna value :=
  ret (VText (Str ("COMPLETED " +:+ join " "
    [str (VInt 0); str (VInt 0); str (VInt 0); str (VInt 0)]))).

Definition terminate (request_list : list text) : M antenna value := ret COMPLETED.

Definition onsource (request_list : list text) : M antenna value :=
  a ← read;
  if (3 <=? onsource_counter a)%Z then
    modify (with_onsource_counter 0);;
    ret (VText (Str "COMPLETED ONSOURCE"))
  else
    modify (with_onsource_counter (onsource_counter a + 1));;
    ret (VText (Str "COMPLETED SLEWING")).

Definition wait_on_source (request_list : list text) : M antenna value := ret COMPLETED.

(** The keys of [self.commands], in the order of the constructor. *)
Definition command_names : list text :=
  [ Bytes "ANTENNA"; Bytes "PARAM"; Bytes "GET_WEATHER"; Bytes "GET_OFFSETS";
    Bytes "GET_AZEL"; Bytes "GET_HADEC"; Bytes "TERMINATE"; Bytes "ONSOURCE";
    Bytes "WAITONSOURCE"; Bytes "GET_COMMANDS"; Bytes "GET_PARAMS";
    Bytes "ATTEN" ].

(** [", ".join(list(self.commands.keys()))]: a [str] separator over
    [bytes] keys. *)
Definition get_commands (request_list : list text) : M antenna value :=
  t ← lift (text_join (Str ", ") command_names); ret (VText t).

(** [b", ".join(list(self.params.keys()))] *)
Definition get_params (request_list : list text) : M antenna value :=
  t ← lift (text_join (Bytes ", ") (map fst params)); ret (VText t).

Definition atten (request_list : list text) : M antenna value := ret COMPLETED.

(** [self.commands] *)
Definition commands : list (text * (list text → M antenna value)) :=
  [ (Bytes "ANTENNA", antenna_cmd); (Bytes "PARAM", get);
    (Bytes "GET_WEATHER", get_weather); (Bytes "GET_OFFSETS", get_offsets);
    (Bytes "GET_AZEL", get_azel); (Bytes "GET_HADEC", get_hadec);
    (Bytes "TERMINATE", terminate); (Bytes "ONSOURCE", onsource);
    (Bytes "WAITONSOURCE", wait_on_source);
    (Bytes "GET_COMMANDS", get_commands); (Bytes "GET_PARAMS", get_params);
    (Bytes "ATTEN", atten) ].

(** The request as [process_request] cuts it up:
    [[r.strip() for r in request_str.split(b" ")]], or [["ERROR"]] when the
    split raises. *)
Definition request_tokens (request_str : text) : list text :=
  match text_split (Bytes " ") request_str with
  | Ok l => map (tmap strip) l
  | Raise _ => [Str "ERROR"]
  end.

Definition process_request (request_str : text) : M antenna value :=
  let split := request_tokens request_str in
  match split with
  | [] => raise IndexError
  | t :: _ =>
      let first := tmap upper t in
      match lookup_first first commands with
      | Some cb => cb split
      | None => ret (VText (Str "ERROR"))
      end
  end.

(** ** [NMCRequestHandler] *)

Definition recv_val : nat := 8.
Definition break_char : string := Socket.break_char.

(** The inner loop of [handle]:
    [while data.find(break_char) == -1: data = recv(recv_val); accum += data]. *)
Fixpoint accumulate (fuel : nat) (data accum : string) (c : Socket.conn)
    : option (string * Socket.conn) :=
  if contains break_char data then Some (accum, c)
  else match fuel with
       | O => None
       | S fuel' =>
           let (data', c') := Socket.recv recv_val c in
           accumulate fuel' data' (accum +:+ data') c'
       end.

(** What the [try] block does with the value [process_request] returned:
    [bytes] go out as they are, a [str] goes out encoded, and anything
    else makes [bytes(resp, encoding='utf-8')] raise. *)
Definition reply_bytes (resp : value) : result string :=
  match resp with
  | VText (Bytes b) => Ok b
  | VText (Str s) => Ok s
  | _ => Raise TypeError
  end.

(** The [try] ... [except Exception] of [handle]: the reply is sent, or
    the error is logged and nothing is sent. *)
Definition respond (accum : string) (c : Socket.conn) (a : antenna)
    : Socket.conn * antenna :=
  match process_request (Bytes accum) a with
  | (Ok resp, a') =>
      match reply_bytes resp with
      | Ok b => (Socket.send b c, a')
      | Raise _ => (c, a')
      end
  | (Raise _, a') => (c, a')
  end.

(** How one pass of [while True] in [handle] ends. *)
Inductive pass : Type :=
| Closed (c : Socket.conn) (a : antenna)
| Served (accum : string) (c : Socket.conn) (a : antenna).

Definition handle_pass (fuel : nat) (c : Socket.conn) (a : antenna) : option pass :=
  let (data, c1) := Socket.recv recv_val c in
  match data with
  | EmptyString => Some (Closed c1 a)
  | _ =>
      match accumulate fuel data data c1 with
      | None => None
      | Some (accum, c2) =>
          let (c3, a') := respond accum c2 a in
          Some (Served accum c3 a')
      end
  end.

(** [handle]: passes until the peer is done.  [None] is a loop that does
    not end within [fuel] receives. *)
Fixpoint handle (fuel : nat) (c : Socket.conn) (a : antenna)
    : option (Socket.conn * antenna) :=
  match fuel with
  | O => None
  | S fuel' =>
      match handle_pass fuel' c a with
      | None => None
      | Some (Closed c' a') => Some (c', a')
      | Some (Served _ c' a') => handle fuel' c' a'
      end
  end.

End Methods.

End Sim43.

(* ===================================================================== *)
(** * simulator/async_nmc_sim43.py: the asyncio simulator                *)
(* ===================================================================== *)

Module AsyncSim43.
Import Py SimData.
Local Open Scope Q_scope.

(** A coroutine handed to [asyncio.ensure_future], as the antenna object
    refers to it. *)
Inductive coroutine : Type :=
| SetRate (axis new_rate : text)
| PointAntenna (ra dec : text)
| UpdateWeather.

Record task : Type := {
  coro : coroutine;
  cancelled : bool
}.

Definition cancel (t : task) : task := {| coro := coro t; cancelled := true |}.

Record antenna : Type := {
  onsource_counter : Z;
  offsets : gmap text axis_offsets;
  point : gmap text point_axis;
  wrap : value;
  wx : weather;
  offset_rate_task : option task;
  point_antenna_task : option task;
  weather_task : option task;
  (** [self.update_rate], keyed by text *)
  update_rate : gmap text Q;
  clock : clock_reading
}.

Definition SimulatedAntenna (now : clock_reading) : antenna :=
  {| onsource_counter := 0;
     offsets := initial_offsets;
     point := initial_point 17;
     wrap := VInt 0;
     wx := initial_weather;
     offset_rate_task := None;
     point_antenna_task := None;
     weather_task := None;
     update_rate :=
       <[Str "offset_rate" := 1]> (<[Str "point_antenna" := 1]>
         (<[Str "update_weather" := 30]> ∅));
     clock := now |}.

Definition with_offsets (f : gmap text axis_offsets → gmap text axis_offsets)
    (a : antenna) : antenna :=
  {| onsource_counter := onsource_counter a; offsets := f (offsets a);
     point := point a; wrap := wrap a; wx := wx a;
     offset_rate_task := offset_rate_task a;
     point_antenna_task := point_antenna_task a;
     weather_task := weather_task a; update_rate := update_rate a;
     clock := clock a |}.

Definition with_point (f : gmap text point_axis → gmap text point_axis)
    (a : antenna) : antenna :=
  {| onsource_counter := onsource_counter a; offsets := offsets a;
     point := f (point a); wrap := wrap a; wx := wx a;
     offset_rate_task := offset_rate_task a;
     point_antenna_task := point_antenna_task a;
     weather_task := weather_task a; update_rate := update_rate a;
     clock := clock a |}.

Definition with_onsource_counter (n : Z) (a : antenna) : antenna :=
  {| onsource_counter := n; offsets := offsets a;
     point := point a; wrap := wrap a; wx := wx a;
     offset_rate_task := offset_rate_task a;
     point_antenna_task := point_antenna_task a;
     weather_task := weather_task a; update_rate := update_rate a;
     clock := clock a |}.

Definition with_offset_rate_task (t : option task) (a : antenna) : antenna :=
  {| onsource_counter := onsource_counter a; offsets := offsets a;
     point := point a; wrap := wrap a; wx := wx a;
     offset_rate_task := t;
     point_antenna_task := point_antenna_task a;
     weather_task := weather_task a; update_rate := update_rate a;
     clock := clock a |}.

Definition with_point_antenna_task (t : option task) (a : antenna) : antenna :=
  {| onsource_counter := onsource_counter a; offsets := offsets a;
     point := point a; wrap := wrap a; wx := wx a;
     offset_rate_task := offset_rate_task a;
     point_antenna_task := t;
     weather_task := weather_task a; update_rate := update_rate a;
     clock := clock a |}.

Definition offsets_item (axis : text) : M antenna axis_offsets :=
  a ← read;
  match offsets a !! axis with
  | Some o => ret o
  | None => raise KeyError
  end.

Definition point_item (axis : text) : M antenna point_axis :=
  a ← read;
  match point a !! axis with
  | Some p => ret p
  | None => raise KeyError
  end.

Definition is_offset_axis (axis : text) (a : antenna) : bool :=
  bool_decide (is_Some (offsets a !! axis)).

(** How a loop of [handle_client] can end: normally, by an exception that
    nothing catches, or never. *)
Inductive outcome (A : Type) : Type :=
| Done (a : A)
| Crashed (e : exn)
| Diverged.
Arguments Done {A} a.
Arguments Crashed {A} e.
Arguments Diverged {A}.

Section Methods.
Context `{Runtime}.

Definition get_offset (axis : text) : M antenna Q :=
  o ← offsets_item axis; ret (offset o).

Definition get_accum_offset (axis : text) : M antenna Q :=
  o ← offsets_item axis; ret (accumulated o).

Definition get_offset_rate (axis : text) : M antenna Q :=
  o ← offsets_item axis; ret (rate o).

(** The body of the coroutine [set_offset]: what runs when the coroutine
    object is awaited or scheduled.  Calling [self.set_offset(...)] alone
    only builds the coroutine object. *)
Definition set_offset (axis : text) (new_offset : value) : M antenna unit :=
  v ← lift (float new_offset);
  let axis := tmap upper axis in
  _ ← get_offset axis;
  a ← read;
  if negb (is_offset_axis axis a) then ret tt
  else
    modify (with_offsets (alter (λ o,
      {| accumulated := accumulated o; offset := v; rate := rate o |}) axis));;
    modify (with_offsets (alter (λ o,
      {| accumulated := v; offset := offset o; rate := rate o |}) axis)).

(** [set_accum_offset] enters [with self.lock], an attribute this class
    never sets. *)
Definition set_accum_offset (axis : text) (new_offset : value) : M antenna unit :=
  v ← lift (float new_offset);
  let axis := tmap upper axis in
  _ ← get_accum_offset axis;
  a ← read;
  if negb (is_offset_axis axis a) then ret tt
  else raise AttributeError.

(** [d[axis][field] = v] on [self.point], aliased as [current_point]. *)
Definition point_update (axis : text) (f : point_axis → point_axis) : M antenna unit :=
  _ ← point_item axis;
  modify (with_point (alter f axis)).

(** One pass of the [while True] of the coroutine [point_antenna], up to
    its [await asyncio.sleep]; [commanded] is what [calc_commanded_azel]
    answers at this pass. *)
Definition point_antenna_tick (slew_rate : Q) (commanded : Q * Q) : M antenna unit :=
  point_update (Str "AZ") (λ p, {| predicted := fst commanded; actual := actual p |});;
  point_update (Str "EL") (λ p, {| predicted := snd commanded; actual := actual p |});;
  forM [Str "AZ"; Str "EL"] (λ axis, point_update axis (slew_axis slew_rate)).

(** ** Command handlers *)

Definition COMPLETED : value := VText (Str "COMPLETED").
Definition REJECTED : value := VText (Str "REJECTED").

Definition antenna_move (request_list : list text) : M antenna value := ret COMPLETED.
Definition antenna_semn (request_list : list text) : M antenna value := ret COMPLETED.
Definition antenna_trk (request_list : list text) : M antenna value := ret COMPLETED.
Definition antenna_hi (request_list : list text) : M antenna value := ret COMPLETED.

Definition antenna_ro (request_list : list text) : M antenna value :=
  match request_list with
  | [_; _; axis; new_rate] =>
      modify (λ a, with_offset_rate_task (cancel <$> offset_rate_task a) a);;
      modify (with_offset_rate_task
        (Some {| coro := SetRate axis new_rate; cancelled := false |}));;
      ret COMPLETED
  | _ => ret REJECTED
  end.

(** [self.set_offset(axis, offset)] is not awaited: the coroutine object is
    dropped and its body never runs. *)
Definition antenna_po (request_list : list text) : M antenna value :=
  match request_list with
  | [_; _; axis; new_offset] => ret COMPLETED
  | _ => ret REJECTED
  end.

(** In the [RO] branch the calls [self.set_rate(direction, 0.0)] are not
    awaited either. *)
Definition antenna_clr (request_list : list text) : M antenna value :=
  match request_list with
  | _ :: _ :: what :: _ =>
      if text_eqb what (Str "RO") then
        modify (λ a, with_offset_rate_task (cancel <$> offset_rate_task a) a);;
        ret COMPLETED
      else if text_eqb what (Str "PO") then
        modify (with_offsets (fmap (λ o,
          {| accumulated := 0; offset := 0; rate := rate o |})));;
        ret COMPLETED
      else ret REJECTED
  | _ => ret REJECTED
  end.

Definition antenna_radec (request_list : list text) : M antenna value :=
  match request_list with
  | [_; _; ra; dec] =>
      modify (λ a, with_point_antenna_task (cancel <$> point_antenna_task a) a);;
      modify (with_point_antenna_task
        (Some {| coro := PointAntenna ra dec; cancelled := false |}));;
      ret COMPLETED
  | _ => ret REJECTED
  end.

Definition antenna_azel (request_list : list text) : M antenna value :=
  raise NotImplementedError.

Definition antenna_subcommands : list (text * (list text → M antenna value)) :=
  [ (Str "HI", antenna_hi); (Str "RO", antenna_ro);
    (Str "PO", antenna_po); (Str "CLR", antenna_clr);
    (Str "TRK", antenna_trk); (Str "MOVE", antenna_move);
    (Str "SEMN", antenna_semn); (Str "RADEC", antenna_radec);
    (Str "AZEL", antenna_azel) ].

Definition antenna_cmd (request_list : list text) : M antenna value :=
  match request_list with
  | _ :: second :: _ =>
      match lookup_first (tmap upper second) antenna_subcommands with
      | Some cb => cb request_list
      | None => ret VNone
      end
  | _ => ret REJECTED
  end.

Definition params : list (text * M antenna value) :=
  let attr (f : antenna → value) : M antenna value := a ← read; ret (f a) in
  let flt (m : M antenna Q) : M antenna value := q ← m; ret (VFloat q) in
  [ (Str "temperature", attr (λ a, temperature (wx a)));
    (Str "pressure", attr (λ a, pressure (wx a)));
    (Str "windspeed", attr (λ a, windspeed (wx a)));
    (Str "winddirection", attr (λ a, winddirection (wx a)));
    (Str "precipitation", attr (λ a, precipitation (wx a)));
    (Str "total_precipitation", attr (λ a, precipitation (wx a)));
    (Str "humidity", attr (λ a, humidity (wx a)));
    (Str "WxHr", attr (λ a, WxHr (wx a)));
    (Str "WxMin", attr (λ a, WxMin (wx a)));
    (Str "WxSec", attr (λ a, WxSec (wx a)));
    (Str "AzimuthPredictedAngle", flt (p ← point_item (Str "AZ"); ret (predicted p)));
    (Str "AzimuthAngle", flt (p ← point_item (Str "AZ"); ret (actual p)));
    (Str "ElevationPredictedAngle", flt (p ← point_item (Str "EL"); ret (predicted p)));
    (Str "ElevationAngle", flt (p ← point_item (Str "EL"); ret (actual p)));
    (Str "WRAP", attr wrap);
    (Str "AzimuthTrackingError", ret (VInt 0));
    (Str "ElevationTrackingError", ret (VInt 0));
    (Str "Status", ret (VText (Str "operational")));
    (Str "AxisAngleTime", ret (VInt 0));
    (Str "ElevationManualOffset", flt (get_accum_offset (Str "EL")));
    (Str "ElevationPositionOffset", flt (get_offset (Str "EL")));
    (Str "ElevationAccumulatedRateOffset", flt (get_accum_offset (Str "EL")));
    (Str "CrossElevationManualOffset", flt (get_accum_offset (Str "XEL")));
    (Str "CrossElevationPositionOffset", flt (get_offset (Str "XEL")));
    (Str "CrossElevationAccumulatedRateOffset", flt (get_accum_offset (Str "XEL")));
    (Str "AzimuthAngleWrap", attr wrap);
    (Str "ANGTIME", attr (λ a,
       VText (Str (str_of_float (time_time (clock a)) +:+ " 18000000 0"))));
    (Str "CurrentDoyTime", attr (λ a, VText (Str (utcnow_doy (clock a))))) ].

Definition get (request_list : list text) : M antenna value :=
  let requested_params := tail request_list in
  vals ← mapM (λ g : M antenna value, v ← g; ret (str v))
              (omap (λ p, lookup_first p params) requested_params);
  ret (VText (Str (join ", " vals))).

Definition get_weather (request_list : list text) : M antenna value :=
  a ← read;
  let w := wx a in
  ret (VText (Str ("COMPLETED " +:+ join " "
    [str (temperature w); str (pressure w); str (humidity w);
     str (windspeed w); str (winddirection w); str (precipitation w);
     join ":" [str (WxHr w); str (WxMin w); str (WxSec w)]]))).

Definition get_offsets (request_list : list text) : M antenna value :=
  el ← get_offset (Str "EL");
  xel ← get_offset (Str "XEL");
  ret (VText (Str ("COMPLETED " +:+ join " "
    [str (VFloat el); str (VInt 0); str (VFloat xel); str (VInt 0)]))).

Definition get_azel (request_list : list text) : M antenna value :=
  a ← read;
  let timestamp := mktime_utcnow (clock a) in
  az ← point_item (Str "AZ");
  el ← point_item (Str "EL");
  ret (VText (Str ("COMPLETED " +:+ join " "
    [str (VFloat (actual az)); str (VFloat (actual el)); str (wrap a);
     str (VFloat timestamp)]))).

Definition get_hadec (request_list : list text) : M antenna value :=
  ret (VText (Str ("COMPLETED " +:+ join " "
    [str (VInt 0); str (VInt 0); str (VInt 0); str (VInt 0)]))).

Definition terminate (request_list : list text) : M antenna value := ret COMPLETED.

Definition onsource (request_list : list text) : M antenna value :=
  a ← read;
  if (3 <=? onsource_counter a)%Z then
    modify (with_onsource_counter 0);;
    ret (VText (Str "COMPLETED ONSOURCE"))
  else
    modify (with_onsource_counter (onsource_counter a + 1));;
    ret (VText (Str "COMPLETED SLEWING")).

Definition wait_on_source (request_list : list text) : M antenna value := ret COMPLETED.

Definition command_names : list text :=
  [ Str "ANTENNA"; Str "PARAM"; Str "GET_WEATHER"; Str "GET_OFFSETS";
    Str "GET_AZEL"; Str "GET_HADEC"; Str "TERMINATE"; Str "ONSOURCE";
    Str "WAITONSOURCE"; Str "GET_COMMANDS"; Str "GET_PARAMS"; Str "ATTEN" ].

Definition get_commands (request_list : list text) : M antenna value :=
  t ← lift (text_join (Str ", ") command_names); ret (VText t).

Definition get_params (request_list : list text) : M antenna value :=
  t ← lift (text_join (Str ", ") (map fst params)); ret (VText t).

Definition atten (request_list : list text) : M antenna value := ret COMPLETED.

Definition commands : list (text * (list text → M antenna value)) :=
  [ (Str "ANTENNA", antenna_cmd); (Str "PARAM", get);
    (Str "GET_WEATHER", get_weather); (Str "GET_OFFSETS", get_offsets);
    (Str "GET_AZEL", get_azel); (Str "GET_HADEC", get_hadec);
    (Str "TERMINATE", terminate); (Str "ONSOURCE", onsource);
    (Str "WAITONSOURCE", wait_on_source);
    (Str "GET_COMMANDS", get_commands); (Str "GET_PARAMS", get_params);
    (Str "ATTEN", atten) ].

(** [[r.strip() for r in request_str.split(" ")]] on the decoded text. *)
Definition request_tokens (request_str : string) : list text :=
  map (λ r, Str (strip r)) (split " " request_str).

Definition dispatch_command (request_str : string) : M antenna value :=
  let split := request_tokens request_str in
  match split with
  | [] => raise IndexError
  | t :: _ =>
      let first := tmap upper t in
      match lookup_first first commands with
      | Some cmd_processor => cmd_processor split
      | None => ret (VText (Str "ERROR"))
      end
  end.

(** ** [NMCServer.handle_client] *)

Definition recv_val : nat := 8.
Definition break_char : string := Socket.break_char.

(** [(await reader.read(recv_val)).decode("utf8")] *)
Definition read_decoded (c : Socket.conn) : result string * Socket.conn :=
  let (raw, c') := Socket.recv recv_val c in
  match decode_utf8 raw with
  | Some s => (Ok s, c')
  | None => (Raise UnicodeDecodeError, c')
  end.

Fixpoint accumulate (fuel : nat) (data accum : string) (c : Socket.conn)
    : outcome (string * Socket.conn) :=
  if contains break_char data then Done (accum, c)
  else match fuel with
       | O => Diverged
       | S fuel' =>
           match read_decoded c with
           | (Ok data', c') => accumulate fuel' data' (accum +:+ data') c'
           | (Raise e, _) => Crashed e
           end
       end.

(** [resp.encode("utf8")] exists on a [str] only. *)
Definition reply_bytes (resp : value) : result string :=
  match resp with
  | VText (Str s) => Ok s
  | _ => Raise AttributeError
  end.

Definition respond (accum : string) (c : Socket.conn) (a : antenna)
    : Socket.conn * antenna :=
  match dispatch_command accum a with
  | (Ok resp, a') =>
      match reply_bytes resp with
      | Ok b => (Socket.send b c, a')
      | Raise _ => (c, a')
      end
  | (Raise _, a') => (c, a')
  end.

Inductive pass : Type :=
| Closed (c : Socket.conn) (a : antenna)
| Served (accum : string) (c : Socket.conn) (a : antenna).

Definition handle_pass (fuel : nat) (c : Socket.conn) (a : antenna) : outcome pass :=
  match read_decoded c with
  | (Raise e, _) => Crashed e
  | (Ok EmptyString, c1) => Done (Closed c1 a)
  | (Ok data, c1) =>
      match accumulate fuel data data c1 with
      | Diverged => Diverged
      | Crashed e => Crashed e
      | Done (accum, c2) =>
          let (c3, a') := respond accum c2 a in
          Done (Served accum c3 a')
      end
  end.

Fixpoint handle_client (fuel : nat) (c : Socket.conn) (a : antenna)
    : outcome (Socket.conn * antenna) :=
  match fuel with
  | O => Diverged
  | S fuel' =>
      match handle_pass fuel' c a with
      | Diverged => Diverged
      | Crashed e => Crashed e
      | Done (Closed c' a') => Done (c', a')
      | Done (Served _ c' a') => handle_client fuel' c' a'
      end
  end.

End Methods.

End AsyncSim43.

(* ===================================================================== *)
(** * simulator/__init__.py: [FakeAntenna]                               *)
(* ===================================================================== *)

Module FakeAntenna.

Record t : Type := {
  wsn : Z;
  site : string;
  dss : Z;
  (** [self.command], unset until the first [send] *)
  command : option string
}.

(** [FakeAntenna()] with the defaults [site="CDSCC", dss=43]. *)
Definition init : t :=
  {| wsn := 0; site := "CDSCC"; dss := 43; command := None |}.

Definition send (command_str : string) (f : t) : t :=
  {| wsn := wsn f; site := site f; dss := dss f; command := Some command_str |}.

Definition recv (recval : nat) (f : t) : string := "COMPLETED".

End FakeAntenna.

(* ===================================================================== *)
(** * nmc_server.py: the client [NMCServer]                              *)
(* ===================================================================== *)

Module Client.
Import Py.
Local Open Scope Q_scope.

(** The calls the object makes on its socket, on its simulator and on the
    clock, in order.  The source does not keep this log; it is what the
    properties about "how many receives" are stated over. *)
Inductive call : Type :=
| Sendall (data : string)
| Recv (bufsize : nat) (data : string)
| SimSend (data : string)
| SimRecv (bufsize : nat) (data : string)
| Sleep (seconds : Q).

(** [self.status["angle"]] *)
Record angles : Type := {
  az : value;
  el : value;
  az_tol : Q;
  el_tol : Q;
  az_pred_tol : Q;
  el_pred_tol : Q
}.

(** [self.status] *)
Record status_dict : Type := {
  antenna_status : value;
  point_status : value;
  angle : angles;
  offset : value * value;
  offset_rate : value * value
}.

Definition initial_status : status_dict :=
  {| antenna_status := VNone;
     point_status := VNone;
     angle := {| az := VNone; el := VNone;
                 az_tol := 85 # 1000; el_tol := 85 # 1000;
                 az_pred_tol := 11 # 100; el_pred_tol := 11 # 100 |};
     offset := (VNone, VNone);
     offset_rate := (VNone, VNone) |}.

(** The attributes of [NMCServer] the modelled methods touch.  The socket
    exchanges plain strings with its peer: the module has no [bytes]
    literal and was written for sockets that take a command string as it
    is. *)
Record NMCServer : Type := {
  sock : option Socket.conn;
  _simulated : bool;
  server_initialized : bool;
  simulator : option FakeAntenna.t;
  status : status_dict;
  calls : list call
}.

Definition with_sock (s : option Socket.conn) (c : NMCServer) : NMCServer :=
  {| sock := s; _simulated := _simulated c;
     server_initialized := server_initialized c; simulator := simulator c;
     status := status c; calls := calls c |}.

Definition with_server_initialized (b : bool) (c : NMCServer) : NMCServer :=
  {| sock := sock c; _simulated := _simulated c;
     server_initialized := b; simulator := simulator c;
     status := status c; calls := calls c |}.

Definition with_simulator (f : option FakeAntenna.t) (c : NMCServer) : NMCServer :=
  {| sock := sock c; _simulated := _simulated c;
     server_initialized := server_initialized c; simulator := f;
     status := status c; calls := calls c |}.

Definition with_point_status (v : value) (c : NMCServer) : NMCServer :=
  {| sock := sock c; _simulated := _simulated c;
     server_initialized := server_initialized c; simulator := simulator c;
     status := {| antenna_status := antenna_status (status c);
                  point_status := v;
                  angle := angle (status c);
                  offset := offset (status c);
                  offset_rate := offset_rate (status c) |};
     calls := calls c |}.

Definition log (e : call) : M NMCServer unit :=
  modify (λ c,
    {| sock := sock c; _simulated := _simulated c;
       server_initialized := server_initialized c; simulator := simulator c;
       status := status c; calls := calls c ++ [e] |}).

(** [self.sock.sendall(data)]; on [None] the attribute is missing. *)
Definition sock_sendall (data : string) : M NMCServer unit :=
  c ← read;
  match sock c with
  | None => raise AttributeError
  | Some s => modify (with_sock (Some (Socket.send data s)));; log (Sendall data)
  end.

(** [self.sock.recv(bufsize)] *)
Definition sock_recv (bufsize : nat) : M NMCServer string :=
  c ← read;
  match sock c with
  | None => raise AttributeError
  | Some s =>
      let (data, s') := Socket.recv bufsize s in
      modify (with_sock (Some s'));; log (Recv bufsize data);; ret data
  end.

Definition simulator_send (data : string) : M NMCServer unit :=
  c ← read;
  match simulator c with
  | None => raise AttributeError
  | Some f => modify (with_simulator (Some (FakeAntenna.send data f)));; log (SimSend data)
  end.

Definition simulator_recv (bufsize : nat) : M NMCServer string :=
  c ← read;
  match simulator c with
  | None => raise AttributeError
  | Some f =>
      let data := FakeAntenna.recv bufsize f in
      log (SimRecv bufsize data);; ret data
  end.

(** [command(command_str, recv_val=128)] *)
Definition command (command_str : string) (recv_val : nat) : M NMCServer string :=
  c ← read;
  if negb (_simulated c) then
    sock_sendall command_str;;
    resp ← sock_recv recv_val;
    ret resp
  else
    simulator_send command_str;;
    resp ← simulator_recv recv_val;
    ret "COMPLETED".

(** [simulate()]: a fresh [FakeAntenna], the socket dropped.  The returned
    dictionary [{'success': True, 'wsn': 0}] is a pair here. *)
Definition simulate : M NMCServer (bool * Z) :=
  modify (λ c,
    {| sock := None; _simulated := true;
       server_initialized := server_initialized c;
       simulator := Some FakeAntenna.init;
       status := status c; calls := calls c |});;
  ret (true, 0%Z).

(** [NMCServer(simulated=True)]: the attributes [__init__] sets, then
    [simulate()]. *)
Definition init_simulated : NMCServer :=
  snd (simulate
         {| sock := None; _simulated := true; server_initialized := false;
            simulator := None; status := initial_status; calls := [] |}).

Definition get_commands : M NMCServer (list string) :=
  commands ← command ("GET_COMMANDS" +:+ Sim43.break_char) 1024;
  ret (split ", " commands).

Definition get_params : M NMCServer (list string) :=
  modify (with_server_initialized true);;
  params ← command ("GET_PARAMS" +:+ Sim43.break_char) 1024;
  ret (split ", " params).

(** A dictionary display or comprehension: later items overwrite earlier
    ones with the same key. *)
Definition dict_of (items : list (string * value)) : gmap string value :=
  foldl (λ d kv, <[kv.1 := kv.2]> d) ∅ items.

(** [get(params..., recv_val=1024)] *)
Definition get (params : list string) (recv_val : nat) : M NMCServer (gmap string value) :=
  c ← read;
  (if negb (server_initialized c) then _ ← get_params; ret tt else ret tt);;
  let return_vals := dict_of (map (λ p, (p, VNone)) params) in
  c ← read;
  if negb (_simulated c) then
    match sock c with
    | Some _ =>
        let cmd := "PARAM " +:+ join " " params +:+ Sim43.break_char in
        resp ← command cmd recv_val;
        let resp_list := split "," resp in
        if (length resp_list =? length params)%nat
        then ret (dict_of (zip params (map (λ r, VText (Str (strip r))) resp_list)))
        else ret return_vals
    | None => ret return_vals
    end
  else
    ret (dict_of [("AzimuthAngle", VInt 60); ("ElevationAngle", VInt 45)]).

(** [d[key]] *)
Definition item (d : gmap string value) (key : string) : result value :=
  match d !! key with
  | Some v => Ok v
  | None => Raise KeyError
  end.

Section Methods.
Context `{Runtime}.

(** [get_offsets]: a set comprehension over the values of the reply,
    [{1000*float(resp[key]) for key in resp}].  A Python set keeps one
    element per numeric value, hence the canonical rationals. *)
Definition get_offsets : M NMCServer (gset Qc) :=
  let params := ["ElevationPositionOffset"; "CrossElevationPositionOffset"] in
  resp ← get params 1024;
  scaled ← mapM (λ kv : string * value, x ← lift (float kv.2); ret (1000 * x))
                (map_to_list resp);
  ret (list_to_set (Q2Qc <$> scaled)).

(** ** [onsource] *)

Definition operational_status : list string := ["operational"; "marginal"].
Definition non_operational_status : list string := ["critical"].

(** [determine_antenna_status], local to [onsource]; [.lower()] exists on
    a text only. *)
Definition determine_antenna_status (status_mon_item_resp : value) : result bool :=
  match status_mon_item_resp with
  | VText t =>
      let status := lower (payload t) in
      if existsb (λ s, contains s status) operational_status then Ok true
      else if existsb (λ s, contains s status) non_operational_status then Ok false
      else Ok true
  | _ => Raise AttributeError
  end.

(** [xel(el, az)], local to [onsource]. *)
Definition xel (el az : Q) : Q := az * np_cos (np_deg2rad el).

Definition param_names : list string :=
  ["AzimuthTrackingError"; "AzimuthAngle"; "AzimuthPredictedAngle";
   "ElevationTrackingError"; "ElevationAngle"; "ElevationPredictedAngle";
   "Status"].

(** The floats [onsource] reads out of its two samples, under the names of
    its local variables. *)
Record tracking : Type := {
  el_prev : Q;
  el_cur : Q;
  el_err_cur : Q;
  el_pred_cur : Q;
  az_prev : Q;
  az_cur : Q;
  az_err_cur : Q;
  az_pred_cur : Q
}.

(** [float(params_before[...])] and [float(params_after[...])], in the
    order of the source. *)
Definition read_tracking (params_before params_after : gmap string value)
    : result tracking :=
  let field d key := match item d key with Ok v => float v | Raise e => Raise e end in
  match field params_before "ElevationAngle" with Raise e => Raise e | Ok el_prev =>
  match field params_after "ElevationAngle" with Raise e => Raise e | Ok el_cur =>
  match field params_after "ElevationTrackingError" with Raise e => Raise e | Ok el_err_cur =>
  match field params_after "ElevationPredictedAngle" with Raise e => Raise e | Ok el_pred_cur =>
  match field params_before "AzimuthAngle" with Raise e => Raise e | Ok az_prev =>
  match field params_after "AzimuthAngle" with Raise e => Raise e | Ok az_cur =>
  match field params_after "AzimuthTrackingError" with Raise e => Raise e | Ok az_err_cur =>
  match field params_after "AzimuthPredictedAngle" with Raise e => Raise e | Ok az_pred_cur =>
    Ok {| el_prev := el_prev; el_cur := el_cur; el_err_cur := el_err_cur;
          el_pred_cur := el_pred_cur; az_prev := az_prev; az_cur := az_cur;
          az_err_cur := az_err_cur; az_pred_cur := az_pred_cur |}
  end end end end end end end end.

(** The four cross-elevations [onsource] derives. *)
Record cross_elevation : Type := {
  xel_prev : Q;
  xel_cur : Q;
  xel_err_cur : Q;
  xel_pred_cur : Q
}.

Definition cross_elevations (t : tracking) : cross_elevation :=
  {| xel_prev := xel (el_prev t) (az_prev t);
     xel_cur := xel (el_cur t) (az_cur t);
     xel_err_cur := xel (el_err_cur t) (az_err_cur t);
     xel_pred_cur := xel (el_cur t) (az_pred_cur t) |}.

(** The condition of the final [if]; the cross-elevation tolerances are the
    [az_tol] and [az_pred_tol] entries of the status. *)
Definition within_tolerance (a : angles) (t : tracking) (x : cross_elevation) : bool :=
  let el_tol := el_tol a in
  let xel_tol := az_tol a in
  let el_pred_tol := el_pred_tol a in
  let xel_pred_tol := az_pred_tol a in
  Qltb (Qabs (xel_err_cur x)) xel_tol &&
  Qltb (Qabs (el_err_cur t)) el_tol &&
  Qltb (Qabs (xel_cur x - xel_prev x)) xel_tol &&
  Qltb (Qabs (el_cur t - el_prev t)) el_tol &&
  Qltb (Qabs (xel_pred_cur x - xel_cur x)) xel_pred_tol &&
  Qltb (Qabs (el_pred_cur t - el_cur t)) el_pred_tol.

Definition onsource : M NMCServer string :=
  c ← read;
  if _simulated c then ret "ONSOURCE"
  else
    params_before ← get param_names 1024;
    status_resp ← lift (item params_before "Status");
    antenna_status_bool ← lift (determine_antenna_status status_resp);
    log (Sleep 2);;
    params_after ← get param_names 1024;
    t ← lift (read_tracking params_before params_after);
    let x := cross_elevations t in
    c ← read;
    let point_status :=
      if within_tolerance (angle (status c)) t x then "ONSOURCE"
      else if (antenna_status_bool : bool) then "SLEWING"
      else "ERROR" in
    modify (with_point_status (VText (Str point_status)));;
    ret point_status.

End Methods.

End Client.

(* ===================================================================== *)
(** * A runtime to run the model on examples                             *)
(* ===================================================================== *)

(** Decimal numerals for [float] and [str], a Taylor polynomial for
    [np.cos], and a decoder that accepts ASCII only.  The general theorems
    hold for every [Runtime]; this one evaluates them on concrete inputs. *)
Module Decimal.
Import Py.
Local Open Scope Z_scope.

Definition digit (c : ascii) : option Z :=
  if ((48 <=? code c) && (code c <=? 57))%N then Some (Z.of_N (code c - 48)) else None.

(** Reads the leading digits of [s]: their value on top of [acc], how
    many there were, and what follows them. *)
Fixpoint digits (s : string) (acc : Z) (n : nat) : Z * nat * string :=
  match s with
  | String c r =>
      match digit c with
      | Some d => digits r (10 * acc + d) (S n)
      | None => (acc, n, s)
      end
  | EmptyString => (acc, n, s)
  end.

(** [sign digits [. digits]] with at least one digit, blanks around it
    ignored. *)
Definition parse (s : string) : option Q :=
  let s := strip s in
  let '(neg, s) :=
    match s with
    | String "-" r => (true, r)
    | String "+" r => (false, r)
    | _ => (false, s)
    end in
  let '(ip, n1, s) := digits s 0 0 in
  let '(num, n2, s) :=
    match s with
    | String "." r => digits r ip 0
    | _ => (ip, 0%nat, s)
    end in
  match s, (n1 + n2)%nat with
  | EmptyString, S _ =>
      Some (Qred (Qmake (if neg then - num else num) (Z.to_pos (10 ^ Z.of_nat n2))))
  | _, _ => None
  end.

(** The digits of [r / d] after the point, at most [n] of them, none once
    the remainder is zero. *)
Fixpoint fraction (n : nat) (r d : Z) : string :=
  match n with
  | O => EmptyString
  | S k =>
      if r =? 0 then EmptyString
      else pretty (10 * r / d) +:+ fraction k (10 * r mod d) d
  end.

(** Integer part, point, and up to 17 decimals (at least one). *)
Definition print (q : Q) : string :=
  let n := Z.abs (Qnum q) in
  let d := Z.pos (Qden q) in
  let frac := fraction 17 (n mod d) d in
  (if Qnum q <? 0 then "-" else "") +:+ pretty (n / d) +:+ "." +:+
  (match frac with EmptyString => "0" | _ => frac end).

Definition cos_poly (x : Q) : Q :=
  let x2 := (x * x)%Q in
  (1 - x2 / 2 * (1 - x2 / 12 * (1 - x2 / 30 * (1 - x2 / 56))))%Q.

Definition decode (s : string) : option string :=
  if is_ascii s then Some s else None.

Lemma decode_ascii s : is_ascii s = true → decode s = Some s.
Proof. intros E. unfold decode. now rewrite E. Qed.

#[global] Instance runtime : Runtime :=
  {| float_of_string := parse;
     str_of_float := print;
     np_cos := cos_poly;
     decode_utf8 := decode;
     decode_utf8_ascii := decode_ascii |}.

End Decimal.

(* ===================================================================== *)
(** * simulator/nmc_sim43.py: the loops of the worker threads            *)
(* ===================================================================== *)

Module Sim43Loops.
Import Py SimData Sim43.

Section Methods.
Context `{Runtime}.



End Methods.

End Sim43Loops.

(* ===================================================================== *)
(** * nmc_server.py: the commands that set rates and offsets             *)
(* ===================================================================== *)

Module ClientOps.
Import Py Client.

(** The nearest integer, ties to the even one. *)
Definition round_half_even (q : Q) : Z :=
  let f := (Qnum q / Z.pos (Qden q))%Z in
  let r := (q - inject_Z f)%Q in
  match Qcompare r (1 # 2) with
  | Lt => f
  | Gt => (f + 1)%Z
  | Eq => if Z.even f then f else (f + 1)%Z
  end.

Fixpoint zeros (n : nat) : string :=
  match n with
  | O => EmptyString
  | S k => String "0" (zeros k)
  end.

(** ["{:.Nf}".format(q)] for [N = digits > 0]: sign, integer part, point
    and [digits] decimals of the rounded value. *)
Definition format_f (digits : nat) (q : Q) : string :=
  let scale := (10 ^ Z.of_nat digits)%Z in
  let m := round_half_even (Qabs q * inject_Z scale) in
  let frac := pretty (m mod scale)%Z in
  (if Qltb q 0 then "-" else "") +:+ pretty (m / scale)%Z +:+ "." +:+
  zeros (digits - String.length frac) +:+ frac.

Definition accepted_axis_types : list string :=
  ["AZ"; "EL"; "XEL"; "HA"; "DEC"; "XDEC"].

(** [set_rate(axis, rate)]; the result is the ["success"] entry of the
    returned dictionary. *)
Definition set_rate (axis : string) (rate : Q) : M NMCServer string :=
  c ← read;
  if negb (_simulated c) then
    if negb (existsb (String.eqb (upper axis)) accepted_axis_types)
    then raise RuntimeError
    else
      let cmd := "ANTENNA RO " +:+ upper axis +:+ " " +:+ format_f 4 rate
                 +:+ Socket.break_char in
      resp ← command cmd 128;
      ret (strip resp)
  else ret "COMPLETED".

(** [set_offset(axis1, axis2, value1, value2, wait_time)]; the result is
    the ["success"] dictionary, one entry per axis. *)
Definition set_offset (axis1 axis2 : string) (value1 value2 : Q)
    (wait_time : option Q) : M NMCServer (gmap string string) :=
  let success : gmap string string :=
    <[axis2 := "COMPLETED"]> (<[axis1 := "COMPLETED"]> ∅) in
  c ← read;
  success ←
    (if negb (_simulated c) then
       let po (axis : string) (v : Q) :=
         "ANTENNA PO " +:+ axis +:+ " " +:+ format_f 4 v +:+ Socket.break_char in
       resp1 ← command (po axis1 value1) 128;
       resp2 ← command (po axis2 value2) 128;
       ret (<[axis2 := resp2]> (<[axis1 := resp1]> success))
     else ret success);
  match wait_time with
  | Some w => log (Sleep w);; ret success
  | None => ret success
  end.

(** [get_azel]: [{key: float(resp[key]) for key in resp}] over the reply
    to [get("AzimuthAngle", "ElevationAngle")]. *)
Definition get_azel `{Runtime} : M NMCServer (gmap string Q) :=
  let params := ["AzimuthAngle"; "ElevationAngle"] in
  resp ← get params 1024;
  items ← mapM (λ kv : string * value, x ← lift (float kv.2); ret (kv.1, x))
               (map_to_list resp);
  ret (list_to_map items).

End ClientOps.

(* ===================================================================== *)
(** * Concrete states and inputs used in the examples                    *)
(* ===================================================================== *)

Definition now0 : SimData.clock_reading :=
  {| SimData.time_time := 0; SimData.mktime_utcnow := 0;
     SimData.utcnow_doy := "1970-001-00:00:00.000000" |}.

(** [PointThread(parent, coord, slew_rate=0.23, update_rate=0.5)] *)
Definition thread_half_second : Sim43.PointThread :=
  {| Sim43.initial_coord := (Py.VFloat 10, Py.VFloat 20);
     Sim43.body_ra := Py.np_deg2rad 10; Sim43.body_dec := Py.np_deg2rad 20;
     Sim43.slew_rate := 23 # 100; Sim43.update_rate := 1 # 2;
     Sim43.update_display_rate := 5; Sim43.current_time := 0;
     Sim43.pt_stop_event := false |}.

(** ** Vocabulary for the client *)




(** The mapping [get] answers with in simulated mode. *)
Definition const_azel : gmap string Py.value :=
  Client.dict_of [("AzimuthAngle", Py.VInt 60); ("ElevationAngle", Py.VInt 45)].

(** The predicted cross-elevation as the specification words it: from the
    predicted azimuth and the predicted elevation. *)
Definition xel_pred_of_predicted_pair `{Py.Runtime} (t : Client.tracking) : Q :=
  Client.xel (Client.el_pred_cur t) (Client.az_pred_cur t).

(** A connected, initialised client whose peer will send [replies]. *)
Definition hardware_client (replies : list string) : Client.NMCServer :=
  {| Client.sock := Some {| Socket.inbound := replies; Socket.sent := [] |};
     Client._simulated := false; Client.server_initialized := true;
     Client.simulator := None; Client.status := Client.initial_status;
     Client.calls := [] |}.








(** ** Vocabulary for the simulators *)

(** A method that leaves the object as it found it, whatever it returns
    or raises. *)
Definition pure_in_state {S A} (m : Py.M S A) : Prop := ∀ s, (m s).2 = s.

(** [type(t) == bytes] *)
Definition is_bytes (t : Py.text) : bool :=
  match t with Py.Bytes _ => true | Py.Str _ => false end.

(** An entry of [self.offsets] after [CLR PO]. *)
Definition cleared (o : SimData.axis_offsets) : SimData.axis_offsets :=
  {| SimData.accumulated := 0; SimData.offset := 0; SimData.rate := SimData.rate o |}.

(** A position thread after [_stop_event.set()] and [join()]. *)
Definition stopped (t : Sim43.PointThread) : Sim43.PointThread :=
  {| Sim43.initial_coord := Sim43.initial_coord t; Sim43.body_ra := Sim43.body_ra t;
     Sim43.body_dec := Sim43.body_dec t; Sim43.slew_rate := Sim43.slew_rate t;
     Sim43.update_rate := Sim43.update_rate t;
     Sim43.update_display_rate := Sim43.update_display_rate t;
     Sim43.current_time := Sim43.current_time t; Sim43.pt_stop_event := true |}.





(** A connection on which nothing is pending. *)
Definition idle (out : list string) : Socket.conn :=
  {| Socket.inbound := []; Socket.sent := out |}.

(* ===================================================================== *)
(** * Properties                                                         *)
(* ===================================================================== *)

Import Py.


Ltac run :=
  repeat (progress (unfold mbind, M_bind, mret, M_ret, bind, ret, raise, read,
                      modify, lift in *;
                    cbn beta iota in * )).

Lemma Qltb_lt (a b : Q) : Qltb a b = true ↔ (a < b)%Q.
Proof.
  unfold Qltb. rewrite negb_true_iff. split.
  - intros E. apply Qnot_le_lt. intros L. apply Qle_bool_iff in L. congruence.
  - intros L. destruct (Qle_bool b a) eqn:E; [|reflexivity].
    apply Qle_bool_iff in E. exfalso. exact (Qlt_not_le _ _ L E).
Qed.

Lemma Qltb_ge (a b : Q) : Qltb a b = false ↔ (b <= a)%Q.
Proof.
  unfold Qltb. rewrite negb_false_iff. apply Qle_bool_iff.
Qed.

(** ** Position offsets in the simulators *)

Section Offsets.
Context `{Runtime}.

Lemma sim43_is_offset_axis (a : Sim43.antenna) axis o :
  Sim43.offsets a !! axis = Some o → Sim43.is_offset_axis axis a = true.
Proof.
  intros E. unfold Sim43.is_offset_axis. apply bool_decide_eq_true. eauto.
Qed.

Lemma async_is_offset_axis (a : AsyncSim43.antenna) axis o :
  AsyncSim43.offsets a !! axis = Some o → AsyncSim43.is_offset_axis axis a = true.
Proof.
  intros E. unfold AsyncSim43.is_offset_axis. apply bool_decide_eq_true. eauto.
Qed.

Lemma sim43_set_offset_run (a : Sim43.antenna) axis new_offset v o :
  float new_offset = Ok v →
  Sim43.offsets a !! tmap upper axis = Some o →
  Sim43.set_offset axis new_offset a =
    (Ok tt, Sim43.with_offsets (λ m, <[tmap upper axis := SimData.written v o]> m) a).
Proof.
  intros Ev Eo. unfold Sim43.set_offset, Sim43.get_offset, Sim43.offsets_item.
  run. rewrite Ev, Eo.
  rewrite (sim43_is_offset_axis a _ o Eo). cbn.
  f_equal. unfold Sim43.with_offsets. cbn. f_equal.
  apply map_eq. intros k. destruct (decide (tmap upper axis = k)) as [<-|Hne].
  - rewrite lookup_insert_eq, !lookup_alter_eq, Eo. reflexivity.
  - rewrite lookup_insert_ne, !lookup_alter_ne by assumption. reflexivity.
Qed.

Lemma async_set_offset_run (a : AsyncSim43.antenna) axis new_offset v o :
  float new_offset = Ok v →
  AsyncSim43.offsets a !! tmap upper axis = Some o →
  AsyncSim43.set_offset axis new_offset a =
    (Ok tt, AsyncSim43.with_offsets (λ m, <[tmap upper axis := SimData.written v o]> m) a).
Proof.
  intros Ev Eo.
  unfold AsyncSim43.set_offset, AsyncSim43.get_offset, AsyncSim43.offsets_item.
  run. rewrite Ev, Eo.
  rewrite (async_is_offset_axis a _ o Eo). cbn.
  f_equal. unfold AsyncSim43.with_offsets. cbn. f_equal.
  apply map_eq. intros k. destruct (decide (tmap upper axis = k)) as [<-|Hne].
  - rewrite lookup_insert_eq, !lookup_alter_eq, Eo. reflexivity.
  - rewrite lookup_insert_ne, !lookup_alter_ne by assumption. reflexivity.
Qed.

End Offsets.

(** C10: for an axis in {EL, XEL} and a value [v], [set_offset(axis, v)]
    (the threaded method, and the body of the asyncio coroutine) leaves
    both the [offset] and the [accumulated] field of that axis equal to
    [v]; the rate of the axis and the other axis keep their values. *)
Theorem set_offset_overwrites_offset_and_accumulated `{Runtime}
    (axis : text) (new_offset : value) (v : Q) :
  axis ∈ [Str "EL"; Str "XEL"] →
  float new_offset = Ok v →
  (∀ (a : Sim43.antenna) o,
     Sim43.offsets a !! axis = Some o →
     ∃ a', Sim43.set_offset axis new_offset a = (Ok tt, a') ∧
       Sim43.offsets a' !! axis =
         Some {| SimData.accumulated := v; SimData.offset := v;
                 SimData.rate := SimData.rate o |} ∧
       ∀ other, other ≠ axis → Sim43.offsets a' !! other = Sim43.offsets a !! other) ∧
  (∀ (a : AsyncSim43.antenna) o,
     AsyncSim43.offsets a !! axis = Some o →
     ∃ a', AsyncSim43.set_offset axis new_offset a = (Ok tt, a') ∧
       AsyncSim43.offsets a' !! axis =
         Some {| SimData.accumulated := v; SimData.offset := v;
                 SimData.rate := SimData.rate o |} ∧
       ∀ other, other ≠ axis →
         AsyncSim43.offsets a' !! other = AsyncSim43.offsets a !! other).
Proof.
  intros Hax Ev.
  assert (Hup : tmap upper axis = axis).
  { apply list_elem_of_In in Hax. cbn in Hax.
    destruct Hax as [<-|[<-|[]]]; reflexivity. }
  split; intros a o Eo.
  - eexists. split.
    + apply (sim43_set_offset_run a axis new_offset v o Ev). now rewrite Hup.
    + rewrite Hup. cbn. split.
      * apply lookup_insert_eq.
      * intros other Hne. apply lookup_insert_ne. congruence.
  - eexists. split.
    + apply (async_set_offset_run a axis new_offset v o Ev). now rewrite Hup.
    + rewrite Hup. cbn. split.
      * apply lookup_insert_eq.
      * intros other Hne. apply lookup_insert_ne. congruence.
Qed.

Lemma set_offset_overwrites_witness :
  ∃ a', Sim43.set_offset (Str "XEL") (VFloat 5) (Sim43.SimulatedAntenna 135 now0)
          = (Ok tt, a') ∧
        Sim43.offsets a' !! Str "XEL" =
          Some {| SimData.accumulated := 5; SimData.offset := 5; SimData.rate := 1 |}.
Proof.
  destruct (set_offset_overwrites_offset_and_accumulated
              (H := Decimal.runtime) (Str "XEL") (VFloat 5) 5) as [Hsim _].
  - apply list_elem_of_In. cbn. tauto.
  - reflexivity.
  - destruct (Hsim (Sim43.SimulatedAntenna 135 now0)
                {| SimData.accumulated := 0; SimData.offset := 0; SimData.rate := 1 |})
      as (a' & Hrun & Hlook & _).
    + reflexivity.
    + exists a'. split; assumption.
Defined.

(** ** Dispatch in the simulators *)

Lemma lookup_first_None {V} (k : text) (d : list (text * V)) :
  lookup_first k d = None ↔ k ∉ map fst d.
Proof.
  induction d as [|[k' v] d IH]; cbn.
  - split; [intros _; apply not_elem_of_nil | reflexivity].
  - rewrite not_elem_of_cons.
    destruct (text_eqb k' k) eqn:E.
    + split; [discriminate|]. intros [Hne _]. exfalso. apply Hne.
      destruct k', k; cbn in E; try discriminate;
        apply String.eqb_eq in E; congruence.
    + rewrite IH. split; [intros Hn; split; [|exact Hn] | tauto].
      intros ->. destruct k'; cbn in E; rewrite String.eqb_refl in E; discriminate.
Qed.

Section Dispatch.
Context `{Runtime}.



(** An [ANTENNA] request with a second token that is no key of
    [self.antenna_subcommands] makes [antenna_cmd] return [None]. *)
Lemma antenna_cmd_unknown_subcommand
    (a : Sim43.antenna) (top second : text) rest :
  tmap upper second ∉ map fst Sim43.antenna_subcommands →
  Sim43.antenna_cmd (top :: second :: rest) a = (Ok VNone, a).
Proof.
  intros Hn. apply lookup_first_None in Hn. unfold Sim43.antenna_cmd.
  rewrite Hn. reflexivity.
Qed.

(** A request served by [handle] leaves the loop running: the pass ends
    in [Served], and only an empty read closes the connection. *)
Lemma handle_pass_closed_only_on_empty_read fuel c a c' a' :
  Sim43.handle_pass fuel c a = Some (Sim43.Closed c' a') →
  fst (Socket.recv Sim43.recv_val c) = EmptyString.
Proof.
  unfold Sim43.handle_pass. destruct (Socket.recv Sim43.recv_val c) as [data c1].
  destruct data; [reflexivity|].
  destruct (Sim43.accumulate _ _ _ _) as [[accum c2]|]; [|discriminate].
  destruct (Sim43.respond accum c2 a). discriminate.
Qed.

(** C3, at the request [ANTENNA FOO]: [FOO] is no registered sub-command,
    [process_request] (and [dispatch_command] of the asyncio variant)
    returns [None] and not ["REJECTED"], and the handler sends nothing
    back. *)
Theorem antenna_unknown_subcommand_gets_no_reply
    (a : Sim43.antenna) (b : AsyncSim43.antenna) (c : Socket.conn) :
  let request := "ANTENNA FOO" +:+ Sim43.break_char in
  (Bytes "FOO" ∉ map fst Sim43.antenna_subcommands) ∧
  Sim43.process_request (Bytes request) a = (Ok VNone, a) ∧
  Sim43.respond request c a = (c, a) ∧
  AsyncSim43.dispatch_command request b = (Ok VNone, b) ∧
  AsyncSim43.respond request c b = (c, b).
Proof.
  cbn zeta. split.
  - apply lookup_first_None. reflexivity.
  - repeat split; reflexivity.
Qed.

End Dispatch.

(** The direct calls: [set_offset(axis, v)] and then [get_offset(axis)]
    give back [v]. *)
Lemma set_offset_then_get_offset `{Runtime}
    (axis : text) (v : Q) (a : Sim43.antenna) o :
  axis ∈ [Str "EL"; Str "XEL"] →
  Sim43.offsets a !! axis = Some o →
  ∃ a', (Sim43.set_offset axis (VFloat v);; Sim43.get_offset axis) a = (Ok v, a').
Proof.
  intros Hax Eo.
  assert (Hup : tmap upper axis = axis).
  { apply list_elem_of_In in Hax. cbn in Hax.
    destruct Hax as [<-|[<-|[]]]; reflexivity. }
  eexists. run.
  rewrite (sim43_set_offset_run a axis (VFloat v) v o eq_refl) by now rewrite Hup.
  unfold Sim43.get_offset, Sim43.offsets_item. run.
  unfold Sim43.with_offsets. cbn [Sim43.offsets]. rewrite Hup, lookup_insert_eq.
  reflexivity.
Qed.

(** C4, at the request line [ANTENNA PO EL 5.0] on a fresh simulator.
    Threaded: the tokens are [bytes], [set_offset] looks [b"EL"] up in the
    [str]-keyed [self.offsets] and raises [KeyError]; nothing is stored and
    the handler sends no reply.  Asyncio: the reply is [COMPLETED] but the
    coroutine [set_offset] is never awaited.  In both the offset read back
    by [PARAM ElevationPositionOffset] is still [0.0].  Evaluated with the
    decimal runtime. *)
Theorem wire_position_offset_is_not_stored (wrap_center : Q) (c : Socket.conn) :
  let R := Decimal.runtime in
  let po := "ANTENNA PO EL 5.0" +:+ Sim43.break_char in
  let param := "PARAM ElevationPositionOffset" +:+ Sim43.break_char in
  let a := Sim43.SimulatedAntenna wrap_center now0 in
  let b := AsyncSim43.SimulatedAntenna now0 in
  float (VText (Bytes "5.0")) = Ok 5%Q ∧
  Sim43.offsets a !! Bytes "EL" = None ∧
  Sim43.process_request (Bytes po) a = (Raise KeyError, a) ∧
  Sim43.respond po c a = (c, a) ∧
  Sim43.process_request (Bytes param) a = (Ok (VText (Str "0.0")), a) ∧
  AsyncSim43.dispatch_command po b = (Ok AsyncSim43.COMPLETED, b) ∧
  AsyncSim43.dispatch_command param b = (Ok (VText (Str "0.0")), b).
Proof.
  cbn zeta. repeat split; reflexivity.
Qed.

(** ** The position loops *)

Section Slew.
Import SimData.
Local Open Scope Q_scope.

Lemma get_direction_cases (diff : Q) :
  (diff < 0 ∧ get_direction diff = -1) ∨ (0 <= diff ∧ get_direction diff = 1).
Proof.
  unfold get_direction. destruct (Qltb diff 0) eqn:E.
  - left. split; [now apply Qltb_lt | reflexivity].
  - right. split; [now apply Qltb_ge | reflexivity].
Qed.


(** Towards a target further than [slew_rate] away the step is exactly
    [slew_rate], whatever the tick period is. *)
Lemma slew_axis_far_target (slew_rate : Q) (p : point_axis) :
  0 <= slew_rate →
  slew_rate < Qabs (predicted p - actual p) →
  Qabs (actual (slew_axis slew_rate p) - actual p) == slew_rate.
Proof.
  intros Hs Hfar. unfold slew_axis.
  apply Qltb_lt in Hfar as E. rewrite E. cbn [actual predicted].
  destruct (get_direction_cases (predicted p - actual p)) as [[Hd ->]|[Hd ->]].
  - assert (Heq : actual p + -1 * slew_rate - actual p == - slew_rate) by ring.
    rewrite Heq, Qabs_opp. apply Qabs_pos. exact Hs.
  - assert (Heq : actual p + 1 * slew_rate - actual p == slew_rate) by ring.
    rewrite Heq. apply Qabs_pos. exact Hs.
Qed.

(** C2, at a tick period of half a second: a thread with slew rate 0.23
    and update rate 0.5, azimuth at 0 and the source at azimuth 10.  One
    pass moves the azimuth by 0.23, twice the cap 0.23 x 0.5; the asyncio
    loop, which does not read its period either, does the same. *)
Theorem point_tick_exceeds_cap_at_half_second_period :
  let t := thread_half_second in
  let a := Sim43.SimulatedAntenna 0 now0 in
  let b := AsyncSim43.with_point (λ _, initial_point 0) (AsyncSim43.SimulatedAntenna now0) in
  let a' := snd (Sim43.PointThread_tick t (10, 88) a) in
  let b' := snd (AsyncSim43.point_antenna_tick (Sim43.slew_rate t) (10, 88) b) in
  Sim43.point a !! Str "AZ" = Some {| predicted := 0; actual := 0 |} ∧
  Sim43.point a' !! Str "AZ" = Some {| predicted := 10; actual := 0 + 1 * (23 # 100) |} ∧
  AsyncSim43.point b' !! Str "AZ" = Some {| predicted := 10; actual := 0 + 1 * (23 # 100) |} ∧
  Sim43.slew_rate t * Sim43.update_rate t < Qabs ((0 + 1 * (23 # 100)) - 0).
Proof.
  cbn zeta. repeat split.
Qed.

End Slew.

(** ** Strings *)

Lemma append_cons (c : ascii) (x y : string) :
  String c x +:+ y = String c (x +:+ y).
Proof. reflexivity. Qed.

Lemma append_nil_l (y : string) : "" +:+ y = y.
Proof. reflexivity. Qed.

Lemma append_nil_r (s : string) : s +:+ "" = s.
Proof. induction s as [|c s IH]; [reflexivity|]. now rewrite append_cons, IH. Qed.

Lemma append_assoc (x y z : string) : (x +:+ y) +:+ z = x +:+ (y +:+ z).
Proof.
  induction x as [|c x IH]; [reflexivity|]. now rewrite !append_cons, IH.
Qed.

Lemma append_length (x y : string) :
  String.length (x +:+ y) = (String.length x + String.length y)%nat.
Proof.
  induction x as [|c x IH]; [reflexivity|].
  rewrite append_cons. cbn [String.length]. now rewrite IH.
Qed.

Lemma take_drop (n : nat) (s : string) : take n s +:+ drop n s = s.
Proof.
  revert s. induction n as [|n IH]; intros [|c s]; try reflexivity.
  cbn [take drop]. now rewrite append_cons, IH.
Qed.

Lemma take_nonempty (n : nat) (s : string) :
  (0 < n)%nat → s ≠ "" → take n s ≠ "".
Proof. destruct n; [lia|]. destruct s; [congruence|]. discriminate. Qed.


Lemma is_ascii_app x y : is_ascii (x +:+ y) = is_ascii x && is_ascii y.
Proof.
  induction x as [|c x IH]; [reflexivity|].
  rewrite append_cons. cbn [is_ascii]. rewrite IH. now rewrite andb_assoc.
Qed.

Lemma contains_break_cons (c : ascii) (s : string) :
  contains Socket.break_char (String c s) =
  Ascii.eqb Socket.newline c || contains Socket.break_char s.
Proof.
  unfold contains, Socket.break_char.
  cbn [String.index String.prefix].
  destruct (ascii_dec Socket.newline c) as [<-|Hne].
  - rewrite Ascii.eqb_refl. destruct s; reflexivity.
  - apply Ascii.eqb_neq in Hne. rewrite Hne. cbn [orb].
    destruct (String.index 0 (String Socket.newline "") s); reflexivity.
Qed.

(** ** Framing of requests *)

Lemma terminated_nonempty s : Socket.terminated s → s ≠ "".
Proof. intros (body & -> & _). destruct body; discriminate. Qed.

(** Cutting a line in two: the terminator is in the first part only when
    nothing follows it. *)
Lemma terminated_cut (x y : string) :
  Socket.terminated (x +:+ y) →
  (contains Socket.break_char x = true → y = "") ∧
  (contains Socket.break_char x = false → Socket.terminated y).
Proof.
  induction x as [|c x IH]; intros Ht.
  - split; [discriminate | intros _; exact Ht].
  - destruct Ht as (body & Eq & Hfree). rewrite contains_break_cons.
    rewrite append_cons in Eq.
    destruct body as [|b body];
      [rewrite append_nil_l in Eq | rewrite append_cons in Eq];
      injection Eq as -> Ex.
    + destruct x; [|discriminate]. rewrite append_nil_l in Ex. subst y.
      rewrite Ascii.eqb_refl. split; [reflexivity | discriminate].
    + rewrite contains_break_cons in Hfree.
      apply orb_false_iff in Hfree as [Hb Hfree].
      rewrite Hb. cbn [orb]. apply IH. exists body. split; assumption.
Qed.

Lemma flat_empty l : Socket.deliveries l → Socket.flat l = "" → l = [].
Proof.
  intros Hd E. destruct l as [|d r]; [reflexivity|].
  inversion Hd; subst. destruct d; [congruence | discriminate].
Qed.

(** A read of at most [n > 0] bytes takes a non-empty prefix of what is
    pending and leaves the rest pending. *)
Lemma recv_spec (n : nat) (c : Socket.conn) d r :
  (0 < n)%nat → Socket.inbound c = d :: r → Socket.deliveries (d :: r) →
  ∃ data c', Socket.recv n c = (data, c') ∧
    data ≠ "" ∧
    data +:+ Socket.flat (Socket.inbound c') = Socket.flat (d :: r) ∧
    Socket.deliveries (Socket.inbound c') ∧
    Socket.sent c' = Socket.sent c.
Proof.
  intros Hn Ei Hd. unfold Socket.recv. rewrite Ei.
  inversion Hd as [|? ? Hne Hr]; subst.
  eexists _, _. split; [reflexivity|]. split; [now apply take_nonempty|].
  cbn [Socket.inbound Socket.sent Socket.flat]. split; [|split; [|reflexivity]].
  - destruct (drop n d) eqn:E.
    + rewrite <- (take_drop n d) at 2. rewrite E, append_nil_r. reflexivity.
    + cbn [Socket.flat]. rewrite <- E, <- append_assoc, take_drop. reflexivity.
  - destruct (drop n d) eqn:E; [exact Hr|]. constructor; [discriminate | exact Hr].
Qed.



Section Framing.
Context `{Runtime}.

(** The inner loop of [handle], entered with less than a line read,
    returns once the line is complete, with the whole line accumulated. *)
Lemma accumulate_reads_line (fuel : nat) :
  ∀ (data accum : string) (c : Socket.conn),
    Socket.deliveries (Socket.inbound c) →
    Socket.terminated (data +:+ Socket.flat (Socket.inbound c)) →
    (String.length (Socket.flat (Socket.inbound c)) ≤ fuel)%nat →
    Sim43.accumulate fuel data accum c =
      Some (accum +:+ Socket.flat (Socket.inbound c),
            {| Socket.inbound := []; Socket.sent := Socket.sent c |}).
Proof.
  induction fuel as [|fuel IH]; intros data accum c Hd Ht Hlen.
  - assert (Socket.flat (Socket.inbound c) = "") as E
        by (destruct (Socket.flat (Socket.inbound c)); [reflexivity | cbn in Hlen; lia]).
    rewrite E in *. rewrite append_nil_r in *.
    apply flat_empty in E; [|exact Hd].
    cbn. unfold Sim43.break_char.
    destruct (terminated_cut data "") as [_ H2]; [now rewrite append_nil_r|].
    destruct (contains Socket.break_char data) eqn:Ec.
    + destruct c; cbn in *; subst; reflexivity.
    + exfalso. exact (terminated_nonempty _ (H2 eq_refl) eq_refl).
  - cbn [Sim43.accumulate]. unfold Sim43.break_char.
    destruct (terminated_cut _ _ Ht) as [H1 H2].
    destruct (contains Socket.break_char data) eqn:Ec.
    + pose proof (H1 eq_refl) as E. rewrite E, append_nil_r.
      apply flat_empty in E; [|exact Hd].
      destruct c; cbn in *; subst; reflexivity.
    + specialize (H2 eq_refl).
      destruct (Socket.inbound c) as [|d r] eqn:Ei.
      { apply terminated_nonempty in H2. cbn in H2. congruence. }
      destruct (recv_spec Sim43.recv_val c d r)
        as (data' & c' & Er & Hne & Hcat & Hd' & Hs);
        [unfold Sim43.recv_val; lia | exact Ei | exact Hd |].
      rewrite Er. rewrite IH.
      * rewrite append_assoc, Hcat, Hs. reflexivity.
      * exact Hd'.
      * rewrite Hcat. exact H2.
      * rewrite <- Hcat, append_length in Hlen.
        destruct data'; [congruence|]. cbn in Hlen. lia.
Qed.

(** One pass of [handle] over a pending request line, however it was
    delivered: the line is accumulated whole and handed to
    [process_request]. *)
Lemma sim43_handle_pass_line (fuel : nat) (segs out : list string)
    (a : Sim43.antenna) (line : string) :
  Socket.deliveries segs → Socket.flat segs = line → Socket.terminated line →
  (String.length line ≤ fuel)%nat →
  let idle := {| Socket.inbound := []; Socket.sent := out |} in
  Sim43.handle_pass fuel {| Socket.inbound := segs; Socket.sent := out |} a =
    Some (Sim43.Served line (Sim43.respond line idle a).1
                            (Sim43.respond line idle a).2).
Proof.
  intros Hd Hf Ht Hlen. cbn zeta. unfold Sim43.handle_pass.
  destruct segs as [|d r].
  { apply terminated_nonempty in Ht. cbn in Hf. congruence. }
  destruct (recv_spec Sim43.recv_val
              {| Socket.inbound := d :: r; Socket.sent := out |} d r)
    as (data & c1 & Er & Hne & Hcat & Hd1 & Hs);
    [unfold Sim43.recv_val; lia | reflexivity | exact Hd |].
  rewrite Er. destruct data as [|ch data]; [congruence|].
  rewrite accumulate_reads_line.
  - rewrite Hcat, Hf, Hs. cbn [Socket.sent].
    destruct (Sim43.respond line _ a). reflexivity.
  - exact Hd1.
  - rewrite Hcat, Hf. exact Ht.
  - rewrite <- Hf, <- Hcat, append_length in Hlen. lia.
Qed.

Lemma async_accumulate_reads_line (fuel : nat) :
  ∀ (data accum : string) (c : Socket.conn),
    Socket.deliveries (Socket.inbound c) →
    is_ascii (Socket.flat (Socket.inbound c)) = true →
    Socket.terminated (data +:+ Socket.flat (Socket.inbound c)) →
    (String.length (Socket.flat (Socket.inbound c)) ≤ fuel)%nat →
    AsyncSim43.accumulate fuel data accum c =
      AsyncSim43.Done (accum +:+ Socket.flat (Socket.inbound c),
            {| Socket.inbound := []; Socket.sent := Socket.sent c |}).
Proof.
  induction fuel as [|fuel IH]; intros data accum c Hd Ha Ht Hlen.
  - assert (Socket.flat (Socket.inbound c) = "") as E
        by (destruct (Socket.flat (Socket.inbound c)); [reflexivity | cbn in Hlen; lia]).
    rewrite E in *. rewrite append_nil_r in *.
    apply flat_empty in E; [|exact Hd].
    cbn. unfold AsyncSim43.break_char.
    destruct (terminated_cut data "") as [_ H2]; [now rewrite append_nil_r|].
    destruct (contains Socket.break_char data) eqn:Ec.
    + destruct c; cbn in *; subst; reflexivity.
    + exfalso. exact (terminated_nonempty _ (H2 eq_refl) eq_refl).
  - cbn [AsyncSim43.accumulate]. unfold AsyncSim43.break_char.
    destruct (terminated_cut _ _ Ht) as [H1 H2].
    destruct (contains Socket.break_char data) eqn:Ec.
    + pose proof (H1 eq_refl) as E. rewrite E, append_nil_r.
      apply flat_empty in E; [|exact Hd].
      destruct c; cbn in *; subst; reflexivity.
    + specialize (H2 eq_refl).
      destruct (Socket.inbound c) as [|d r] eqn:Ei.
      { apply terminated_nonempty in H2. cbn in H2. congruence. }
      destruct (recv_spec AsyncSim43.recv_val c d r)
        as (data' & c' & Er & Hne & Hcat & Hd' & Hs);
        [unfold AsyncSim43.recv_val; lia | exact Ei | exact Hd |].
      rewrite <- Hcat, is_ascii_app in Ha. apply andb_true_iff in Ha as [Ha1 Ha2].
      unfold AsyncSim43.read_decoded. rewrite Er, (decode_utf8_ascii _ Ha1).
      rewrite IH.
      * rewrite append_assoc, Hcat, Hs. reflexivity.
      * exact Hd'.
      * exact Ha2.
      * rewrite Hcat. exact H2.
      * rewrite <- Hcat, append_length in Hlen.
        destruct data'; [congruence|]. cbn in Hlen. lia.
Qed.

Lemma async_handle_pass_line (fuel : nat) (segs out : list string)
    (a : AsyncSim43.antenna) (line : string) :
  Socket.deliveries segs → Socket.flat segs = line → Socket.terminated line →
  is_ascii line = true →
  (String.length line ≤ fuel)%nat →
  let idle := {| Socket.inbound := []; Socket.sent := out |} in
  AsyncSim43.handle_pass fuel {| Socket.inbound := segs; Socket.sent := out |} a =
    AsyncSim43.Done
      (AsyncSim43.Served line (AsyncSim43.respond line idle a).1
                              (AsyncSim43.respond line idle a).2).
Proof.
  intros Hd Hf Ht Ha Hlen. cbn zeta. unfold AsyncSim43.handle_pass.
  destruct segs as [|d r].
  { apply terminated_nonempty in Ht. cbn in Hf. congruence. }
  destruct (recv_spec AsyncSim43.recv_val
              {| Socket.inbound := d :: r; Socket.sent := out |} d r)
    as (data & c1 & Er & Hne & Hcat & Hd1 & Hs);
    [unfold AsyncSim43.recv_val; lia | reflexivity | exact Hd |].
  rewrite <- Hf, <- Hcat, is_ascii_app in Ha. apply andb_true_iff in Ha as [Ha1 Ha2].
  unfold AsyncSim43.read_decoded. rewrite Er, (decode_utf8_ascii _ Ha1).
  destruct data as [|ch data]; [congruence|].
  rewrite async_accumulate_reads_line.
  - rewrite Hcat, Hf, Hs. cbn [Socket.sent].
    destruct (AsyncSim43.respond line _ a). reflexivity.
  - exact Hd1.
  - exact Ha2.
  - rewrite Hcat, Hf. exact Ht.
  - rewrite <- Hf, <- Hcat, append_length in Hlen. lia.
Qed.


End Framing.


(** ** The client: [command] and [get] *)

Section ClientCommand.
Import Client.



(** [command] in simulated mode: the request goes to the [FakeAntenna],
    one receive is asked of it, and the answer is ["COMPLETED"]. *)
Lemma command_simulated (command_str : string) (recv_val : nat) (c : NMCServer) f :
  _simulated c = true → simulator c = Some f →
  command command_str recv_val c =
    (Ok "COMPLETED",
     {| sock := sock c;
        _simulated := true; server_initialized := server_initialized c;
        simulator := Some (FakeAntenna.send command_str f); status := status c;
        calls := (calls c ++ [SimSend command_str]) ++
                 [SimRecv recv_val "COMPLETED"] |}).
Proof.
  intros Hs Hk. unfold command, simulator_send, simulator_recv, log. run.
  rewrite Hs. cbn [negb]. run. rewrite Hk. run. cbn. rewrite Hs. reflexivity.
Qed.



(** C9, as the code has it: in simulated mode [get] answers the constant
    mapping whatever is requested, composes no [PARAM] command and leaves
    the socket alone; the only command that goes out is [GET_PARAMS], to
    the [FakeAntenna], and only while the server is not initialised. *)
Theorem get_simulated_constant
    (params : list string) (recv_val : nat) (c : NMCServer) f :
  _simulated c = true → simulator c = Some f →
  ∃ c', get params recv_val c = (Ok const_azel, c') ∧
    sock c' = sock c ∧
    calls c' = (calls c ++
      (if server_initialized c then []
       else [SimSend ("GET_PARAMS" +:+ Socket.break_char);
             SimRecv 1024 "COMPLETED"]))%list.
Proof.
  intros Hs Hf. unfold get. run.
  destruct (server_initialized c) eqn:Hi; cbn [negb]; run.
  - rewrite Hs. cbn [negb]. eexists. split; [reflexivity|].
    split; [reflexivity | now rewrite app_nil_r].
  - unfold get_params. run. cbn [with_server_initialized].
    rewrite (command_simulated _ _ _ f) by (cbn; assumption).
    cbn [_simulated negb]. eexists. split; [reflexivity|].
    cbn [sock calls]. split; [reflexivity | now rewrite <- app_assoc].
Qed.

Lemma get_simulated_constant_witness :
  ∃ c', get ["temperature"; "pressure"; "humidity"] 1024 init_simulated
          = (Ok const_azel, c').
Proof.
  destruct (get_simulated_constant ["temperature"; "pressure"; "humidity"] 1024
              init_simulated FakeAntenna.init eq_refl eq_refl)
    as (c' & Hrun & _).
  exists c'. exact Hrun.
Defined.

(** C9 as stated fails on a client just built in simulated mode: its
    first [get] sends [GET_PARAMS] to the simulator. *)
Lemma get_simulated_sends_get_params :
  calls (get ["AzimuthAngle"] 1024 init_simulated).2 =
    [SimSend ("GET_PARAMS" +:+ Socket.break_char); SimRecv 1024 "COMPLETED"] ∧
  calls (get ["AzimuthAngle"] 1024 init_simulated).2 ≠ calls init_simulated.
Proof. split; [reflexivity | discriminate]. Qed.

End ClientCommand.

(** ** The client: [get_offsets] *)

Section ClientOffsets.
Import Client.
Local Open Scope Q_scope.



Context `{Runtime}.


End ClientOffsets.


(** ** The client: [onsource] *)

Section Onsource.
Import Client.
Local Open Scope Q_scope.
Context `{Runtime}.

(** The status text decides: "operational" or "marginal" anywhere in it,
    in any case, is operational; otherwise "critical" is not; anything
    else is. *)
Lemma determine_antenna_status_operational (status_text : string) :
  contains "operational" (lower status_text) = true →
  determine_antenna_status (VText (Str status_text)) = Ok true.
Proof.
  intros E. unfold determine_antenna_status. cbn [payload existsb operational_status].
  now rewrite E.
Qed.

Lemma determine_antenna_status_critical (status_text : string) :
  contains "operational" (lower status_text) = false →
  contains "marginal" (lower status_text) = false →
  contains "critical" (lower status_text) = true →
  determine_antenna_status (VText (Str status_text)) = Ok false.
Proof.
  intros E1 E2 E3. unfold determine_antenna_status.
  cbn [payload existsb operational_status non_operational_status].
  now rewrite E1, E2, E3.
Qed.





(** Wherever the cosines of the reached and of the predicted elevation
    differ and the predicted azimuth is not zero, the predicted
    cross-elevation is not the one of the (predicted, predicted) pair. *)
Lemma xel_pred_differs (t : tracking) :
  ¬ az_pred_cur t == 0 →
  ¬ np_cos (np_deg2rad (el_cur t)) == np_cos (np_deg2rad (el_pred_cur t)) →
  ¬ xel_pred_cur (cross_elevations t) == xel_pred_of_predicted_pair t.
Proof.
  intros Haz Hcos E. apply Hcos.
  unfold xel_pred_of_predicted_pair, cross_elevations, xel in E.
  cbn [xel_pred_cur] in E.
  apply (Qmult_inj_l _ _ (az_pred_cur t)); assumption.
Qed.

End Onsource.




(* ===================================================================== *)
(** * Further properties of the simulators                               *)
(* ===================================================================== *)

(** Settles a decidable proposition about closed terms by evaluation. *)
Ltac decide_it := apply (bool_decide_unpack _); vm_compute; exact I.

(** ** More on strings and dictionaries *)


Lemma text_eqb_eq (a b : text) : text_eqb a b = true ↔ a = b.
Proof.
  destruct a, b; cbn; rewrite ?String.eqb_eq; split; congruence.
Qed.

Lemma lookup_first_elem {V} (k : text) (d : list (text * V)) v :
  lookup_first k d = Some v → (k, v) ∈ d.
Proof.
  induction d as [|[k' v'] d IH]; cbn; [discriminate|].
  destruct (text_eqb k' k) eqn:E.
  - apply text_eqb_eq in E as ->. intros [= ->]. left.
  - intros Hl. right. now apply IH.
Qed.

Lemma omap_lookup_elem {V} (d : list (text * V)) (names : list text) g :
  g ∈ omap (λ p, lookup_first p d) names → ∃ k, (k, g) ∈ d.
Proof.
  intros Hg. apply list_elem_of_omap in Hg as (p & _ & Hl).
  exists p. now apply lookup_first_elem.
Qed.

Lemma omap_filter_is_Some {A B} (f : A → option B) (l : list A) :
  omap f (filter (λ x, is_Some (f x)) l) = omap f l.
Proof.
  induction l as [|x l IH]; [reflexivity|].
  rewrite filter_cons. destruct (decide (is_Some (f x))) as [Hs|Hn]; cbn.
  - now rewrite IH.
  - rewrite IH. destruct (f x) eqn:E; [|reflexivity]. exfalso. apply Hn. eauto.
Qed.

Lemma omap_all_None {A B} (f : A → option B) (l : list A) :
  (∀ x, x ∈ l → f x = None) → omap f l = [].
Proof.
  induction l as [|x l IH]; intros Hn; [reflexivity|]. cbn.
  rewrite (Hn x) by left. apply IH. intros y Hy. apply Hn. now right.
Qed.

Lemma take_all (n : nat) (x : string) : (String.length x ≤ n)%nat → take n x = x.
Proof.
  revert x. induction n as [|n IH]; intros [|ch x] Hl; cbn in *;
    try reflexivity; try lia.
  now rewrite IH by lia.
Qed.

Lemma drop_all (n : nat) (x : string) : (String.length x ≤ n)%nat → drop n x = "".
Proof.
  revert x. induction n as [|n IH]; intros [|ch x] Hl; cbn in *;
    try reflexivity; try lia.
  apply IH. lia.
Qed.

(** ** Methods that only read *)

Lemma pure_ret {S A} (a : A) : pure_in_state (ret a : M S A).
Proof. intros s. reflexivity. Qed.

Lemma pure_bind {S A B} (m : M S A) (k : A → M S B) :
  pure_in_state m → (∀ a, pure_in_state (k a)) → pure_in_state (m ≫= k).
Proof.
  intros Hm Hk s. run. specialize (Hm s).
  destruct (m s) as [[a|e] s']; cbn in *; subst.
  - apply Hk.
  - reflexivity.
Qed.

Lemma pure_mapM {S A B} (f : A → M S B) (l : list A) :
  (∀ x, x ∈ l → pure_in_state (f x)) → pure_in_state (mapM f l).
Proof.
  induction l as [|x l IH]; intros Hf; cbn [mapM].
  - apply pure_ret.
  - apply pure_bind; [apply Hf; left|]. intros y.
    apply pure_bind; [apply IH; intros z Hz; apply Hf; now right|].
    intros ys. apply pure_ret.
Qed.

Lemma sim43_offsets_item_pure axis : pure_in_state (Sim43.offsets_item axis).
Proof.
  intros a. unfold Sim43.offsets_item. run. now destruct (Sim43.offsets a !! axis).
Qed.

Lemma sim43_point_item_pure axis : pure_in_state (Sim43.point_item axis).
Proof.
  intros a. unfold Sim43.point_item. run. now destruct (Sim43.point a !! axis).
Qed.

Lemma async_offsets_item_pure axis : pure_in_state (AsyncSim43.offsets_item axis).
Proof.
  intros a. unfold AsyncSim43.offsets_item. run.
  now destruct (AsyncSim43.offsets a !! axis).
Qed.

Lemma async_point_item_pure axis : pure_in_state (AsyncSim43.point_item axis).
Proof.
  intros a. unfold AsyncSim43.point_item. run.
  now destruct (AsyncSim43.point a !! axis).
Qed.

(** Every entry of [self.params] is a [lambda] that only reads. *)
Lemma sim43_params_pure `{Runtime} :
  Forall (λ kv : text * M Sim43.antenna value, pure_in_state kv.2) Sim43.params.
Proof.
  unfold Sim43.params.
  repeat (constructor;
    [ cbn [snd];
      first [ apply pure_ret
            | apply pure_bind; [intros a; reflexivity | intros ?; apply pure_ret]
            | apply pure_bind;
              [ first [ apply pure_bind;
                        [apply sim43_point_item_pure | intros ?; apply pure_ret]
                      | unfold Sim43.get_offset, Sim43.get_accum_offset;
                        apply pure_bind;
                        [apply sim43_offsets_item_pure | intros ?; apply pure_ret] ]
              | intros ?; apply pure_ret ] ]
    | ]).
  constructor.
Qed.

Lemma async_params_pure `{Runtime} :
  Forall (λ kv : text * M AsyncSim43.antenna value, pure_in_state kv.2)
         AsyncSim43.params.
Proof.
  unfold AsyncSim43.params.
  repeat (constructor;
    [ cbn [snd];
      first [ apply pure_ret
            | apply pure_bind; [intros a; reflexivity | intros ?; apply pure_ret]
            | apply pure_bind;
              [ first [ apply pure_bind;
                        [apply async_point_item_pure | intros ?; apply pure_ret]
                      | unfold AsyncSim43.get_offset, AsyncSim43.get_accum_offset;
                        apply pure_bind;
                        [apply async_offsets_item_pure | intros ?; apply pure_ret] ]
              | intros ?; apply pure_ret ] ]
    | ]).
  constructor.
Qed.

(** ** Dispatch *)


Lemma request_tokens_bytes (request : string) :
  forallb is_bytes (Sim43.request_tokens (Bytes request)) = true.
Proof.
  unfold Sim43.request_tokens. cbn [text_split].
  induction (split " " request) as [|x l IH]; [reflexivity|]. cbn. exact IH.
Qed.




(** X2: [process_request] of the threaded simulator splits its argument
    on a [bytes] separator, so every request handed over as a [str], a
    valid command line included, takes the [except] branch and is answered
    ["ERROR"]. *)
Theorem str_request_is_answered_error `{Runtime}
    (request : string) (a : Sim43.antenna) :
  Sim43.process_request (Str request) a = (Ok (VText (Str "ERROR")), a).
Proof. reflexivity. Qed.

(** X3: a [PARAM] request never changes the antenna, in either simulator
    and whatever names it lists, whether the reply is built or a look-up
    raises. *)
Theorem param_requests_leave_the_antenna_unchanged `{Runtime}
    (request_list : list text) (a : Sim43.antenna) (b : AsyncSim43.antenna) :
  (Sim43.get request_list a).2 = a ∧ (AsyncSim43.get request_list b).2 = b.
Proof.
  split.
  - apply (pure_bind (S := Sim43.antenna)); [|intros ?; apply pure_ret].
    apply pure_mapM. intros g Hg.
    apply omap_lookup_elem in Hg as (k & Hk).
    pose proof sim43_params_pure as Hp. rewrite Forall_forall in Hp.
    apply pure_bind; [exact (Hp _ Hk) | intros ?; apply pure_ret].
  - apply (pure_bind (S := AsyncSim43.antenna)); [|intros ?; apply pure_ret].
    apply pure_mapM. intros g Hg.
    apply omap_lookup_elem in Hg as (k & Hk).
    pose proof async_params_pure as Hp. rewrite Forall_forall in Hp.
    apply pure_bind; [exact (Hp _ Hk) | intros ?; apply pure_ret].
Qed.

(** X4: names that are no key of [self.params] are dropped from a [PARAM]
    request without a trace: the reply is the one to the request with
    those names removed, so it has fewer fields than names were asked. *)
Theorem param_skips_unregistered_names `{Runtime}
    (cmd : text) (names : list text) (a : Sim43.antenna) (b : AsyncSim43.antenna) :
  Sim43.get (cmd :: names) a =
    Sim43.get (cmd :: filter (λ p, is_Some (lookup_first p Sim43.params)) names) a ∧
  AsyncSim43.get (cmd :: names) b =
    AsyncSim43.get
      (cmd :: filter (λ p, is_Some (lookup_first p AsyncSim43.params)) names) b.
Proof.
  split.
  - unfold Sim43.get. cbn [tail]. now rewrite omap_filter_is_Some.
  - unfold AsyncSim43.get. cbn [tail]. now rewrite omap_filter_is_Some.
Qed.

(** X5: a [PARAM] request none of whose names is a key of [self.params]
    (the keys are matched as given, without case folding) is answered with
    the empty string. *)
Theorem param_unknown_names_give_empty_reply `{Runtime}
    (cmd : text) (names : list text) (a : Sim43.antenna) :
  (∀ p, p ∈ names → lookup_first p Sim43.params = None) →
  Sim43.get (cmd :: names) a = (Ok (VText (Str "")), a).
Proof.
  intros Hn. unfold Sim43.get. cbn [tail].
  rewrite omap_all_None; [reflexivity | exact Hn].
Qed.

Lemma param_unknown_names_give_empty_reply_witness :
  Sim43.get [Bytes "PARAM"; Bytes "azimuthangle"; Bytes "Elevation"]
    (Sim43.SimulatedAntenna 135 now0)
  = (Ok (VText (Str "")), Sim43.SimulatedAntenna 135 now0).
Proof.
  apply (param_unknown_names_give_empty_reply (H := Decimal.runtime)).
  intros p Hp. apply list_elem_of_In in Hp. cbn in Hp.
  destruct Hp as [<-|[<-|[]]]; reflexivity.
Defined.

(** X6: the [ONSOURCE] command of the simulators counts requests: from a
    counter at 0, three requests are answered [COMPLETED SLEWING], the
    fourth [COMPLETED ONSOURCE], and the counter is back at 0. *)
Theorem simulator_onsource_every_fourth_request `{Runtime}
    (a : Sim43.antenna) (b : AsyncSim43.antenna) (request_list : list text) :
  Sim43.onsource_counter a = 0%Z →
  AsyncSim43.onsource_counter b = 0%Z →
  let slewing := VText (Str "COMPLETED SLEWING") in
  let onsource := VText (Str "COMPLETED ONSOURCE") in
  mapM (λ _ : unit, Sim43.onsource request_list) [tt; tt; tt; tt] a =
    (Ok [slewing; slewing; slewing; onsource], a) ∧
  mapM (λ _ : unit, AsyncSim43.onsource request_list) [tt; tt; tt; tt] b =
    (Ok [slewing; slewing; slewing; onsource], b).
Proof.
  intros Ea Eb. cbn zeta. destruct a, b. cbn in Ea, Eb. subst.
  split; reflexivity.
Qed.

Lemma simulator_onsource_every_fourth_request_witness :
  mapM (λ _ : unit, Sim43.onsource [Bytes "ONSOURCE"]) [tt; tt; tt; tt]
    (Sim43.SimulatedAntenna 135 now0)
  = (Ok [VText (Str "COMPLETED SLEWING"); VText (Str "COMPLETED SLEWING");
         VText (Str "COMPLETED SLEWING"); VText (Str "COMPLETED ONSOURCE")],
     Sim43.SimulatedAntenna 135 now0).
Proof.
  destruct (simulator_onsource_every_fourth_request (H := Decimal.runtime)
              (Sim43.SimulatedAntenna 135 now0) (AsyncSim43.SimulatedAntenna now0)
              [Bytes "ONSOURCE"]) as [Hsim _].
  - reflexivity.
  - reflexivity.
  - exact Hsim.
Defined.

(** ** The [ANTENNA] sub-commands on the wire *)

Lemma antenna_clr_bytes_tokens `{Runtime}
    (request_list : list text) (a : Sim43.antenna) :
  forallb is_bytes request_list = true →
  Sim43.antenna_clr request_list a = (Ok Sim43.REJECTED, a).
Proof.
  intros Hb. unfold Sim43.antenna_clr.
  destruct request_list as [|t1 [|t2 [|what rest]]]; try reflexivity.
  cbn in Hb. apply andb_true_iff in Hb as [_ Hb].
  apply andb_true_iff in Hb as [_ Hb]. apply andb_true_iff in Hb as [Hw _].
  destruct what; [discriminate|]. reflexivity.
Qed.

(** X7: the threaded [antenna_clr] compares its third token with the
    [str] literals ["RO"] and ["PO"], and the tokens of a request read
    from the socket are [bytes]: every [ANTENNA CLR ...] line is answered
    ["REJECTED"] and clears nothing. *)
Theorem wire_clear_is_rejected `{Runtime}
    (request : string) (first second : text) (rest : list text)
    (a : Sim43.antenna) :
  Sim43.request_tokens (Bytes request) = first :: second :: rest →
  tmap upper first = Bytes "ANTENNA" →
  tmap upper second = Bytes "CLR" →
  Sim43.process_request (Bytes request) a = (Ok Sim43.REJECTED, a).
Proof.
  intros Et E1 E2. unfold Sim43.process_request. rewrite Et, E1.
  cbn [lookup_first Sim43.commands text_eqb String.eqb Ascii.eqb Bool.eqb].
  unfold Sim43.antenna_cmd. rewrite E2.
  cbn [lookup_first Sim43.antenna_subcommands text_eqb String.eqb Ascii.eqb Bool.eqb].
  apply antenna_clr_bytes_tokens. rewrite <- Et. apply request_tokens_bytes.
Qed.

Lemma wire_clear_is_rejected_witness :
  Sim43.process_request (Bytes ("ANTENNA CLR PO" +:+ Socket.break_char))
    (Sim43.SimulatedAntenna 135 now0)
  = (Ok Sim43.REJECTED, Sim43.SimulatedAntenna 135 now0).
Proof.
  apply (wire_clear_is_rejected (H := Decimal.runtime) _
           (Bytes "ANTENNA") (Bytes "CLR") [Bytes "PO"]); reflexivity.
Defined.

(** X8: in the asyncio simulator [ANTENNA CLR PO] is answered
    ["COMPLETED"] and zeroes the [offset] and the [accumulated] field of
    every axis; the rates and the pointing are kept. *)
Theorem async_clr_po_zeroes_offsets `{Runtime} (b : AsyncSim43.antenna) :
  let request := "ANTENNA CLR PO" +:+ Socket.break_char in
  ∃ b', AsyncSim43.dispatch_command request b = (Ok AsyncSim43.COMPLETED, b') ∧
    AsyncSim43.offsets b' = cleared <$> AsyncSim43.offsets b ∧
    (∀ axis o, AsyncSim43.offsets b !! axis = Some o →
       AsyncSim43.get_offset axis b' = (Ok 0%Q, b') ∧
       AsyncSim43.get_accum_offset axis b' = (Ok 0%Q, b') ∧
       AsyncSim43.get_offset_rate axis b' = (Ok (SimData.rate o), b')) ∧
    AsyncSim43.point b' = AsyncSim43.point b.
Proof.
  cbn zeta. exists (AsyncSim43.with_offsets (fmap cleared) b).
  split; [reflexivity|]. cbn. split; [reflexivity|]. split; [|reflexivity].
  intros axis o Eo.
  unfold AsyncSim43.get_offset, AsyncSim43.get_accum_offset,
    AsyncSim43.get_offset_rate, AsyncSim43.offsets_item.
  run. cbn. rewrite lookup_fmap, Eo. cbn. repeat split.
Qed.

(** X9: like [ANTENNA PO], an [ANTENNA RO axis rate] line fails in the
    threaded simulator: [set_rate] formats [self.offsets[axis]["rate"]]
    for its debug message with the [bytes] axis, the dictionary has [str]
    keys only, and the [KeyError] leaves the antenna unchanged and the
    client without a reply. *)
Theorem wire_rate_offset_raises_key_error `{Runtime}
    (request : string) (first second axis new_rate : text) (a : Sim43.antenna) :
  Sim43.request_tokens (Bytes request) = [first; second; axis; new_rate] →
  tmap upper first = Bytes "ANTENNA" →
  tmap upper second = Bytes "RO" →
  (∀ k, Sim43.offsets a !! Bytes k = None) →
  Sim43.process_request (Bytes request) a = (Raise KeyError, a) ∧
  ∀ c, Sim43.respond request c a = (c, a).
Proof.
  intros Et E1 E2 Hkeys.
  assert (Hrun : Sim43.process_request (Bytes request) a = (Raise KeyError, a)).
  { unfold Sim43.process_request. rewrite Et, E1.
    cbn [lookup_first Sim43.commands text_eqb String.eqb Ascii.eqb Bool.eqb].
    unfold Sim43.antenna_cmd. rewrite E2.
    cbn [lookup_first Sim43.antenna_subcommands text_eqb String.eqb Ascii.eqb Bool.eqb].
    pose proof (request_tokens_bytes request) as Hb. rewrite Et in Hb.
    assert (Hax : is_bytes axis = true).
    { cbn in Hb. destruct (is_bytes first), (is_bytes second), (is_bytes axis);
        first [reflexivity | discriminate]. }
    destruct axis as [x|x]; [discriminate|].
    unfold Sim43.antenna_ro, Sim43.set_rate, Sim43.offsets_item. run.
    cbn [tmap]. now rewrite Hkeys. }
  split; [exact Hrun|]. intros c. unfold Sim43.respond. now rewrite Hrun.
Qed.

Lemma wire_rate_offset_raises_key_error_witness :
  Sim43.respond ("ANTENNA RO EL 1.0" +:+ Socket.break_char) (idle [])
    (Sim43.SimulatedAntenna 135 now0)
  = (idle [], Sim43.SimulatedAntenna 135 now0).
Proof.
  destruct (wire_rate_offset_raises_key_error (H := Decimal.runtime)
              ("ANTENNA RO EL 1.0" +:+ Socket.break_char)
              (Bytes "ANTENNA") (Bytes "RO") (Bytes "EL") (Bytes "1.0")
              (Sim43.SimulatedAntenna 135 now0)) as [_ Hresp].
  - reflexivity.
  - reflexivity.
  - reflexivity.
  - intros k. reflexivity.
  - apply Hresp.
Defined.

(** X10: [get_commands] of the threaded simulator joins the [bytes] keys
    of [self.commands] with a [str] separator: every [GET_COMMANDS]
    request raises [TypeError], and the handler sends nothing back. *)
Theorem threaded_get_commands_sends_no_reply `{Runtime}
    (request : string) (first : text) (rest : list text)
    (a : Sim43.antenna) (c : Socket.conn) :
  Sim43.request_tokens (Bytes request) = first :: rest →
  tmap upper first = Bytes "GET_COMMANDS" →
  Sim43.process_request (Bytes request) a = (Raise TypeError, a) ∧
  Sim43.respond request c a = (c, a).
Proof.
  intros Et E1.
  assert (Hrun : Sim43.process_request (Bytes request) a = (Raise TypeError, a)).
  { unfold Sim43.process_request. rewrite Et, E1. reflexivity. }
  split; [exact Hrun|]. unfold Sim43.respond. now rewrite Hrun.
Qed.

Lemma threaded_get_commands_sends_no_reply_witness :
  Sim43.respond ("get_commands" +:+ Socket.break_char) (idle [])
    (Sim43.SimulatedAntenna 135 now0)
  = (idle [], Sim43.SimulatedAntenna 135 now0).
Proof.
  destruct (threaded_get_commands_sends_no_reply (H := Decimal.runtime)
              ("get_commands" +:+ Socket.break_char) (Bytes "get_commands") []
              (Sim43.SimulatedAntenna 135 now0) (idle [])) as [_ Hresp].
  - reflexivity.
  - reflexivity.
  - exact Hresp.
Defined.



(** X12: when the first coordinate of [ANTENNA RADEC] is no number, the
    thread constructor raises after [point_antenna] has stopped the
    running position thread: the error propagates, the attribute still
    names the stopped thread, and no new thread tracks anything. *)
Theorem antenna_radec_bad_coordinate_stops_tracking `{Runtime}
    (top sub ra dec : text) (e : exn) (a : Sim43.antenna) :
  float (VText ra) = Raise e →
  Sim43.antenna_radec [top; sub; ra; dec] a =
    (Raise e,
     Sim43.with_point_antenna_thread (stopped <$> Sim43.point_antenna_thread a) a).
Proof.
  intros Ex. unfold Sim43.antenna_radec, Sim43.point_antenna, Sim43.PointThread_init.
  run. cbn -[float]. rewrite Ex. reflexivity.
Qed.

Lemma antenna_radec_bad_coordinate_stops_tracking_witness :
  Sim43.antenna_radec [Bytes "ANTENNA"; Bytes "RADEC"; Bytes "ten"; Bytes "20.0"]
    (Sim43.with_point_antenna_thread (Some thread_half_second)
       (Sim43.SimulatedAntenna 135 now0))
  = (Raise ValueError,
     Sim43.with_point_antenna_thread (Some (stopped thread_half_second))
       (Sim43.SimulatedAntenna 135 now0)).
Proof.
  apply (antenna_radec_bad_coordinate_stops_tracking (H := Decimal.runtime)
           (Bytes "ANTENNA") (Bytes "RADEC") (Bytes "ten") (Bytes "20.0") ValueError
           (Sim43.with_point_antenna_thread (Some thread_half_second)
              (Sim43.SimulatedAntenna 135 now0))).
  reflexivity.
Defined.

(** ** The setters *)

(** X13: [set_offset] on an axis that is no key of [self.offsets] never
    reaches its own check of the axis: the debug message reads the old
    offset first and the call ends in [KeyError], in both simulators,
    with nothing changed. *)
Theorem set_offset_unknown_axis_raises_key_error `{Runtime}
    (axis : text) (new_offset : value) (v : Q) :
  float new_offset = Ok v →
  (∀ a : Sim43.antenna,
     Sim43.offsets a !! tmap upper axis = None →
     Sim43.set_offset axis new_offset a = (Raise KeyError, a)) ∧
  (∀ b : AsyncSim43.antenna,
     AsyncSim43.offsets b !! tmap upper axis = None →
     AsyncSim43.set_offset axis new_offset b = (Raise KeyError, b)).
Proof.
  intros Ev. split.
  - intros a En. unfold Sim43.set_offset, Sim43.get_offset, Sim43.offsets_item.
    run. now rewrite Ev, En.
  - intros b En.
    unfold AsyncSim43.set_offset, AsyncSim43.get_offset, AsyncSim43.offsets_item.
    run. now rewrite Ev, En.
Qed.

Lemma set_offset_unknown_axis_raises_key_error_witness :
  Sim43.set_offset (Str "az") (VFloat 1) (Sim43.SimulatedAntenna 135 now0)
  = (Raise KeyError, Sim43.SimulatedAntenna 135 now0).
Proof.
  destruct (set_offset_unknown_axis_raises_key_error (H := Decimal.runtime)
              (Str "az") (VFloat 1) 1) as [Hsim _].
  - reflexivity.
  - apply Hsim. reflexivity.
Defined.



(** ** The worker threads *)

Section Threads.
Import SimData.
Local Open Scope Q_scope.














End Threads.

(** ** The request handlers *)

Lemma contains_break_app (x y : string) :
  contains Socket.break_char (x +:+ y) =
  contains Socket.break_char x || contains Socket.break_char y.
Proof.
  induction x as [|c x IH]; [reflexivity|].
  rewrite append_cons, !contains_break_cons, IH. now rewrite orb_assoc.
Qed.

Lemma recv_done (n : nat) (c : Socket.conn) :
  Socket.inbound c = [] → Socket.recv n c = ("", c).
Proof. intros E. unfold Socket.recv. now rewrite E. Qed.


Lemma sim43_accumulate_unterminated `{Runtime} (fuel : nat) :
  ∀ (data accum : string) (c : Socket.conn),
    Socket.deliveries (Socket.inbound c) →
    contains Socket.break_char data = false →
    contains Socket.break_char (Socket.flat (Socket.inbound c)) = false →
    Sim43.accumulate fuel data accum c = None.
Proof.
  induction fuel as [|fuel IH]; intros data accum c Hd Hdata Hrest;
    cbn [Sim43.accumulate]; unfold Sim43.break_char; rewrite Hdata; [reflexivity|].
  destruct (Socket.inbound c) as [|d r] eqn:Ei.
  - rewrite (recv_done _ _ Ei).
    apply IH; rewrite ?Ei; [constructor | reflexivity | reflexivity].
  - destruct (recv_spec Sim43.recv_val c d r)
      as (data' & c' & Er & _ & Hcat & Hd' & _);
      [unfold Sim43.recv_val; lia | exact Ei | exact Hd |].
    rewrite Er. rewrite <- Hcat, contains_break_app in Hrest.
    apply orb_false_iff in Hrest as [H1 H2]. now apply IH.
Qed.

Lemma async_accumulate_unterminated `{Runtime} (fuel : nat) :
  ∀ (data accum : string) (c : Socket.conn),
    Socket.deliveries (Socket.inbound c) →
    is_ascii (Socket.flat (Socket.inbound c)) = true →
    contains Socket.break_char data = false →
    contains Socket.break_char (Socket.flat (Socket.inbound c)) = false →
    AsyncSim43.accumulate fuel data accum c = AsyncSim43.Diverged.
Proof.
  induction fuel as [|fuel IH]; intros data accum c Hd Ha Hdata Hrest;
    cbn [AsyncSim43.accumulate]; unfold AsyncSim43.break_char; rewrite Hdata;
    [reflexivity|].
  unfold AsyncSim43.read_decoded.
  destruct (Socket.inbound c) as [|d r] eqn:Ei.
  - rewrite (recv_done _ _ Ei), (decode_utf8_ascii "" eq_refl).
    apply IH; rewrite ?Ei; [constructor | reflexivity | reflexivity | reflexivity].
  - destruct (recv_spec AsyncSim43.recv_val c d r)
      as (data' & c' & Er & _ & Hcat & Hd' & _);
      [unfold AsyncSim43.recv_val; lia | exact Ei | exact Hd |].
    rewrite Er. rewrite <- Hcat, contains_break_app in Hrest.
    rewrite <- Hcat, is_ascii_app in Ha.
    apply orb_false_iff in Hrest as [H1 H2]. apply andb_true_iff in Ha as [Ha1 Ha2].
    rewrite (decode_utf8_ascii _ Ha1). now apply IH.
Qed.

(** X18: a peer that sends part of a line and then stops, closed or
    silent, holds the handler in its inner loop for good: the loop tests
    [data.find(break_char)] only and an empty read never satisfies it, so
    [handle] (and [handle_client] on ASCII input) does not return within
    any number of reads. *)
Theorem handler_never_returns_on_unterminated_input `{Runtime}
    (segs out : list string) (fuel : nat) :
  Socket.deliveries segs → segs ≠ [] →
  contains Socket.break_char (Socket.flat segs) = false →
  let c := {| Socket.inbound := segs; Socket.sent := out |} in
  (∀ a, Sim43.handle fuel c a = None) ∧
  (is_ascii (Socket.flat segs) = true →
   ∀ b, AsyncSim43.handle_client fuel c b = AsyncSim43.Diverged).
Proof.
  intros Hd Hne Hfree. cbn zeta.
  destruct segs as [|d r]; [congruence|].
  split.
  - intros a. destruct fuel as [|fuel]; [reflexivity|].
    cbn [Sim43.handle]. unfold Sim43.handle_pass.
    destruct (recv_spec Sim43.recv_val
                {| Socket.inbound := d :: r; Socket.sent := out |} d r)
      as (data & c1 & Er & Hdn & Hcat & Hd1 & _);
      [unfold Sim43.recv_val; lia | reflexivity | exact Hd |].
    rewrite Er. destruct data as [|ch data]; [congruence|].
    rewrite <- Hcat, contains_break_app in Hfree.
    apply orb_false_iff in Hfree as [H1 H2].
    now rewrite sim43_accumulate_unterminated.
  - intros Ha b. destruct fuel as [|fuel]; [reflexivity|].
    cbn [AsyncSim43.handle_client].
    unfold AsyncSim43.handle_pass, AsyncSim43.read_decoded.
    destruct (recv_spec AsyncSim43.recv_val
                {| Socket.inbound := d :: r; Socket.sent := out |} d r)
      as (data & c1 & Er & Hdn & Hcat & Hd1 & _);
      [unfold AsyncSim43.recv_val; lia | reflexivity | exact Hd |].
    rewrite Er. rewrite <- Hcat, contains_break_app in Hfree.
    rewrite <- Hcat, is_ascii_app in Ha.
    apply orb_false_iff in Hfree as [H1 H2]. apply andb_true_iff in Ha as [Ha1 Ha2].
    rewrite (decode_utf8_ascii _ Ha1).
    destruct data as [|ch data]; [congruence|].
    now rewrite async_accumulate_unterminated.
Qed.

Lemma handler_never_returns_on_unterminated_input_witness :
  Sim43.handle 64 {| Socket.inbound := ["GET_"; "OFFS"]; Socket.sent := [] |}
    (Sim43.SimulatedAntenna 135 now0) = None.
Proof.
  destruct (handler_never_returns_on_unterminated_input (H := Decimal.runtime)
              ["GET_"; "OFFS"] [] 64) as [Hsim _].
  - repeat constructor; discriminate.
  - discriminate.
  - reflexivity.
  - apply Hsim.
Defined.

Lemma sim43_respond_inbound `{Runtime} accum c a :
  Socket.inbound (Sim43.respond accum c a).1 = Socket.inbound c.
Proof.
  unfold Sim43.respond.
  destruct (Sim43.process_request _ a) as [[resp|e] a']; [|reflexivity].
  destruct (Sim43.reply_bytes resp); reflexivity.
Qed.

Lemma async_respond_inbound `{Runtime} accum c a :
  Socket.inbound (AsyncSim43.respond accum c a).1 = Socket.inbound c.
Proof.
  unfold AsyncSim43.respond.
  destruct (AsyncSim43.dispatch_command _ a) as [[resp|e] a']; [|reflexivity].
  destruct (AsyncSim43.reply_bytes resp); reflexivity.
Qed.

(** X19: a peer that sends one request line, in whatever pieces, and is
    then done: [handle] returns, having served the line once, with the
    connection and the antenna as that one request leaves them.  Any
    number of reads from the length of the line plus two is enough. *)
Theorem handler_serves_a_line_and_returns `{Runtime}
    (segs out : list string) (line : string) (fuel : nat) :
  Socket.deliveries segs → Socket.flat segs = line → Socket.terminated line →
  (String.length line + 2 ≤ fuel)%nat →
  let c := {| Socket.inbound := segs; Socket.sent := out |} in
  (∀ a, Sim43.handle fuel c a = Some (Sim43.respond line (idle out) a)) ∧
  (is_ascii line = true →
   ∀ b, AsyncSim43.handle_client fuel c b =
          AsyncSim43.Done (AsyncSim43.respond line (idle out) b)).
Proof.
  intros Hd Hf Ht Hlen. cbn zeta. unfold idle.
  destruct fuel as [|[|fuel]]; [lia | lia |].
  split.
  - intros a. cbn [Sim43.handle].
    rewrite (sim43_handle_pass_line (S fuel) segs out a line Hd Hf Ht) by lia.
    unfold Sim43.handle_pass. rewrite recv_done by apply sim43_respond_inbound.
    now destruct (Sim43.respond line _ a).
  - intros Ha b. cbn [AsyncSim43.handle_client].
    rewrite (async_handle_pass_line (S fuel) segs out b line Hd Hf Ht Ha) by lia.
    unfold AsyncSim43.handle_pass, AsyncSim43.read_decoded.
    rewrite recv_done by apply async_respond_inbound.
    rewrite (decode_utf8_ascii "" eq_refl).
    now destruct (AsyncSim43.respond line _ b).
Qed.

Lemma handler_serves_a_line_and_returns_witness :
  Sim43.handle 8
    {| Socket.inbound := ["ATT"; "EN" +:+ Socket.break_char]; Socket.sent := [] |}
    (Sim43.SimulatedAntenna 135 now0)
  = Some (idle ["COMPLETED"], Sim43.SimulatedAntenna 135 now0).
Proof.
  destruct (handler_serves_a_line_and_returns (H := Decimal.runtime)
              ["ATT"; "EN" +:+ Socket.break_char] []
              ("ATTEN" +:+ Socket.break_char) 8) as [Hsim _].
  - repeat constructor; discriminate.
  - reflexivity.
  - exists "ATTEN". split; reflexivity.
  - vm_compute. lia.
  - rewrite Hsim. reflexivity.
Defined.

(** X20: the request handed to [process_request] is what the reads
    returned up to and including the read that held a terminator, not the
    line: when a line and what follows it arrive in one read of at most
    [recv_val] bytes, the pass serves them together as one request and
    nothing is left for a second one. *)
Theorem lines_sharing_a_read_are_one_request `{Runtime}
    (first rest : string) (out : list string) (a : Sim43.antenna) (fuel : nat) :
  Socket.terminated first →
  (String.length (first +:+ rest) ≤ Sim43.recv_val)%nat →
  let c := {| Socket.inbound := [first +:+ rest]; Socket.sent := out |} in
  Sim43.handle_pass fuel c a =
    Some (Sim43.Served (first +:+ rest)
            (Sim43.respond (first +:+ rest) (idle out) a).1
            (Sim43.respond (first +:+ rest) (idle out) a).2).
Proof.
  intros Ht Hlen. cbn zeta. unfold idle.
  assert (Hc : contains Socket.break_char (first +:+ rest) = true).
  { rewrite contains_break_app. destruct Ht as (body & -> & _).
    rewrite contains_break_app. cbn. now rewrite orb_true_r. }
  unfold Sim43.handle_pass, Socket.recv. cbn [Socket.inbound Socket.sent].
  rewrite (take_all _ _ Hlen), (drop_all _ _ Hlen).
  destruct (first +:+ rest) as [|ch s] eqn:Es; [discriminate|].
  destruct fuel; cbn [Sim43.accumulate]; unfold Sim43.break_char; rewrite Hc;
    now destruct (Sim43.respond _ _ a).
Qed.

Lemma lines_sharing_a_read_are_one_request_witness :
  let both := ("ATTEN" +:+ Socket.break_char) +:+ ("X" +:+ Socket.break_char) in
  Sim43.handle_pass 0 {| Socket.inbound := [both]; Socket.sent := [] |}
    (Sim43.SimulatedAntenna 135 now0)
  = Some (Sim43.Served both (idle ["ERROR"]) (Sim43.SimulatedAntenna 135 now0)).
Proof.
  cbn zeta.
  rewrite (lines_sharing_a_read_are_one_request (H := Decimal.runtime)
             ("ATTEN" +:+ Socket.break_char) ("X" +:+ Socket.break_char) []
             (Sim43.SimulatedAntenna 135 now0) 0).
  - reflexivity.
  - exists "ATTEN". split; reflexivity.
  - vm_compute. lia.
Defined.

(* ===================================================================== *)
(** * Further properties of the client                                   *)
(* ===================================================================== *)

(** ** Replies to [PARAM] *)










Section ClientReplies.
Import Client.













(** X25: in simulated mode [get_offsets] returns the set {60000, 45000}
    whatever the state of the client: [get] answers its constant azimuth
    and elevation whatever is asked, and [get_offsets] scales the values
    of that mapping by 1000. *)
Theorem get_offsets_simulated_gives_scaled_angles `{Runtime} (c : NMCServer) f :
  _simulated c = true → simulator c = Some f →
  ∃ (s : gset Qc) c',
    get_offsets c = (Ok s, c') ∧
    ∀ q, q ∈ s ↔ q = Q2Qc 60000 ∨ q = Q2Qc 45000.
Proof.
  intros Hs Hf.
  exists ({[ Q2Qc 60000; Q2Qc 45000 ]}).
  assert (Hget : ∃ c', get ["ElevationPositionOffset"; "CrossElevationPositionOffset"]
                         1024 c = (Ok const_azel, c')).
  { unfold get. run. destruct (server_initialized c) eqn:Hi; cbn [negb]; run.
    - rewrite Hs. cbn [negb]. eexists. reflexivity.
    - unfold get_params. run. cbn [with_server_initialized].
      rewrite (command_simulated _ _ _ f) by (cbn; assumption).
      cbn [_simulated negb]. eexists. reflexivity. }
  destruct Hget as (c' & Hget). exists c'. split.
  - unfold get_offsets. run. rewrite Hget.
    assert (Hitems : map_to_list const_azel =
              [("AzimuthAngle", VInt 60); ("ElevationAngle", VInt 45)] ∨
            map_to_list const_azel =
              [("ElevationAngle", VInt 45); ("AzimuthAngle", VInt 60)]).
    { first [left; vm_compute; reflexivity | right; vm_compute; reflexivity]. }
    assert (E60 : Q2Qc (1000 * inject_Z 60) = Q2Qc 60000)
      by (apply Q2Qc_eq_iff; reflexivity).
    assert (E45 : Q2Qc (1000 * inject_Z 45) = Q2Qc 45000)
      by (apply Q2Qc_eq_iff; reflexivity).
    destruct Hitems as [-> | ->]; cbn [mapM snd float]; run;
      cbn [fmap list_fmap list_to_set foldr]; rewrite E60, E45.
    + now rewrite union_empty_r_L.
    + rewrite union_empty_r_L.
      now rewrite (union_comm_L {[Q2Qc 45000]} {[Q2Qc 60000]}).
  - intros q. rewrite elem_of_union, !elem_of_singleton. reflexivity.
Qed.

Lemma get_offsets_simulated_gives_scaled_angles_witness :
  ∃ (s : gset Qc) c',
    Client.get_offsets init_simulated = (Ok s, c') ∧ Q2Qc 60000 ∈ s.
Proof.
  destruct (get_offsets_simulated_gives_scaled_angles (H := Decimal.runtime)
              init_simulated FakeAntenna.init)
    as (s & c' & Hrun & Hmem).
  - reflexivity.
  - reflexivity.
  - exists s, c'. split; [exact Hrun|]. apply Hmem. left. reflexivity.
Defined.



End ClientReplies.

(** ** Rates and offsets *)

Section ClientRates.
Import Client ClientOps.

(** X27: [set_rate] checks its axis in hardware mode only.  An axis
    outside AZ, EL, XEL, HA, DEC, XDEC (in any case) makes it raise
    [RuntimeError] before anything is sent; in simulated mode the same
    call reports ["COMPLETED"] and nothing reaches the simulator. *)
Theorem set_rate_checks_axis_in_hardware_mode_only
    (axis : string) (rate : Q) (c : NMCServer) :
  upper axis ∉ accepted_axis_types →
  set_rate axis rate c =
    if _simulated c then (Ok "COMPLETED", c) else (Raise RuntimeError, c).
Proof.
  intros Hn. unfold set_rate. run. destruct (_simulated c); [reflexivity|].
  cbn [negb].
  assert (E : existsb (String.eqb (upper axis)) accepted_axis_types = false).
  { apply not_true_iff_false. intros Ex.
    apply existsb_exists in Ex as (x & Hin & Ex).
    apply String.eqb_eq in Ex as <-. apply Hn. now apply list_elem_of_In. }
  now rewrite E.
Qed.

Lemma set_rate_checks_axis_in_hardware_mode_only_witness :
  set_rate "ra" 1 (hardware_client []) = (Raise RuntimeError, hardware_client []).
Proof.
  apply (set_rate_checks_axis_in_hardware_mode_only "ra" 1 (hardware_client [])).
  decide_it.
Defined.




End ClientRates.
